(** * pygame-multiplayer: command protocol and server transport

    A shallow embedding of
      - [pygame_multiplayer/commands/commands.py]: the command classes,
        their keyword-argument constructors, [serialize], [deserialize],
        [from_client_cmd] and [to_client_cmd];
      - [pygame_multiplayer/network/server.py]: [NetworkServerBase] with
        [bind], [_accept], [_recv], [_send] and [is_binded].

    Python objects are values of [value], exceptions are values of [exn]
    carried by the [result] monad, a [str] is its list of code points, a
    [dict] is an insertion-ordered association list, and the socket layer
    is an explicit environment threaded through the transport.

    The two library mechanisms the commands rest on are embedded as well:
    the [json] module of the standard library ([dumps] and [loads] with
    their defaults, after [json/encoder.py], [json/decoder.py] and
    [json/scanner.py]) and the binding of keyword arguments at a call. *)

From Stdlib Require Import ZArith NArith List String Ascii Bool Lia.
From Stdlib Require Import Decimal DecimalFacts DecimalPos DecimalN DecimalZ.
Import ListNotations.

(* ================================================================== *)
(** ** Python strings, exceptions and the error monad *)

(** A Python [str]: the sequence of its Unicode code points. *)
Definition pystr := list N.

(** The [str] of an ASCII literal. *)
Definition str (s : string) : pystr :=
  map N_of_ascii (list_ascii_of_string s).

Definition pystr_eq_dec : forall a b : pystr, {a = b} + {a <> b} :=
  list_eq_dec N.eq_dec.

Definition pystr_eqb (a b : pystr) : bool :=
  if pystr_eq_dec a b then true else false.

(** The causes of [TypeError] that the modelled code can meet. *)
Inductive type_error : Type :=
| MultipleValues (name : pystr)       (* got multiple values for argument *)
| MissingArguments (names : list pystr) (* missing required positional arguments *)
| TooManyPositional
| NotAMapping                          (* argument after ** must be a mapping *)
| NotSerializable.                     (* Object of type ... is not JSON serializable *)

Inductive exn : Type :=
| JSONDecodeError (msg : string)
| AttributeError (attr : pystr)
| TypeError (why : type_error)
| ConnectionError (msg : string)
| OSError (msg : string)
| ValueError (msg : string)
| RecursionError.

Inductive result (A : Type) : Type :=
| Ok (a : A)
| Raise (e : exn).

Arguments Ok {A} a.
Arguments Raise {A} e.

Definition bind_result {A B : Type} (r : result A) (k : A -> result B) : result B :=
  match r with
  | Ok a => k a
  | Raise e => Raise e
  end.

Declare Scope py_scope.
Delimit Scope py_scope with py.
Notation "x <- r ;; k" := (bind_result r (fun x => k))
  (at level 61, r at next level, right associativity) : py_scope.
Notation "' p <- r ;; k" := (bind_result r (fun x => let p := x in k))
  (at level 61, p pattern, r at next level, right associativity) : py_scope.
Open Scope py_scope.

(* ================================================================== *)
(** ** Peer handles and Python values *)

(** Modelled from the spec: the Peer Handle [ClientBase] of
    [pygame_multiplayer.models], which is not among the sources.  The
    spec gives it an underlying duplex connection, a constructor from the
    pair produced by accept, and an equality usable for roster
    membership.  A connection is named by its handle. *)
Record ClientBase : Type := mkClient {
  conn : nat;
  client_addr : pystr * Z
}.

Definition ClientBase_eq_dec : forall a b : ClientBase, {a = b} + {a <> b}.
Proof.
  decide equality.
  - destruct client_addr0 as [h p], client_addr1 as [h' p'].
    destruct (pystr_eq_dec h h'); [| right; congruence].
    destruct (Z.eq_dec p p'); [left | right]; congruence.
  - apply Nat.eq_dec.
Defined.

(** [ClientBase.from_accept(conn, addr)]. *)
Definition from_accept (accepted : nat * (pystr * Z)) : ClientBase :=
  mkClient (fst accepted) (snd accepted).

Set Warnings "-register-all".

(** The Python values the commands carry.  A [float] is kept as the
    decimal literal that denotes it: float arithmetic is outside the
    embedding, and every statement about serialisation excludes floats. *)
Inductive value : Type :=
| VNone
| VBool (b : bool)
| VInt (z : Z)
| VFloat (literal : pystr)
| VStr (s : pystr)
| VList (l : list value)
| VDict (d : list (pystr * value))
| VClient (c : ClientBase).

(** A [dict] with [str] keys, in insertion order. *)
Definition dict := list (pystr * value).

Fixpoint dict_get (k : pystr) (d : dict) : option value :=
  match d with
  | [] => None
  | (k', v) :: r => if pystr_eqb k k' then Some v else dict_get k r
  end.

Definition has_key (k : pystr) (d : dict) : bool :=
  match dict_get k d with Some _ => true | None => false end.

(** [d[k] = v]: replaces in place, or appends a new key. *)
Fixpoint dict_set (k : pystr) (v : value) (d : dict) : dict :=
  match d with
  | [] => [(k, v)]
  | (k', v') :: r =>
      if pystr_eqb k k' then (k, v) :: r else (k', v') :: dict_set k v r
  end.

(** [dict(pairs)]. *)
Definition dict_of_pairs (pairs : list (pystr * value)) : dict :=
  fold_left (fun d kv => dict_set (fst kv) (snd kv) d) pairs [].

Definition keys (d : dict) : list pystr := map fst d.

(* ================================================================== *)
(** ** The [json] module: encoder

    [json.dumps] with its defaults: [ensure_ascii=True] and the separators
    [", "] and [": "]. *)

(** A lower-case hexadecimal digit. *)
Definition hexdigit (n : N) : N :=
  if (n <? 10)%N then (48 + n)%N else (87 + n)%N.

(** ['{0:04x}'.format(n)]. *)
Definition hex4 (n : N) : pystr :=
  [hexdigit ((n / 4096) mod 16); hexdigit ((n / 256) mod 16);
   hexdigit ((n / 16) mod 16); hexdigit (n mod 16)]%N.

(** The replacement of one character by [py_encode_basestring_ascii]:
    the short escapes of [ESCAPE_DCT], printable ASCII as it is, and
    [\uXXXX] (a surrogate pair above the basic plane) for the rest. *)
Definition escape_char (c : N) : pystr :=
  if (c =? 34)%N then [92; 34]%N
  else if (c =? 92)%N then [92; 92]%N
  else if (c =? 10)%N then [92; 110]%N
  else if (c =? 13)%N then [92; 114]%N
  else if (c =? 9)%N then [92; 116]%N
  else if (c =? 8)%N then [92; 98]%N
  else if (c =? 12)%N then [92; 102]%N
  else if ((32 <=? c) && (c <=? 126))%N then [c]
  else if (c <? 65536)%N then (92 :: 117 :: hex4 c)%N
  else
    let n := (c - 65536)%N in
    let s1 := N.lor 55296 (N.land (N.shiftr n 10) 1023) in
    let s2 := N.lor 56320 (N.land n 1023) in
    ((92 :: 117 :: hex4 s1) ++ (92 :: 117 :: hex4 s2))%N.

Definition encode_basestring_ascii (s : pystr) : pystr :=
  34%N :: flat_map escape_char s ++ [34%N].

Definition digit_char (d : N) : N := (48 + d)%N.

(** The digits of a decimal numeral, most significant first. *)
Fixpoint uint_text (u : uint) : pystr :=
  match u with
  | Nil => []
  | D0 r => digit_char 0 :: uint_text r
  | D1 r => digit_char 1 :: uint_text r
  | D2 r => digit_char 2 :: uint_text r
  | D3 r => digit_char 3 :: uint_text r
  | D4 r => digit_char 4 :: uint_text r
  | D5 r => digit_char 5 :: uint_text r
  | D6 r => digit_char 6 :: uint_text r
  | D7 r => digit_char 7 :: uint_text r
  | D8 r => digit_char 8 :: uint_text r
  | D9 r => digit_char 9 :: uint_text r
  end.

(** [int.__repr__]. *)
Definition int_repr (z : Z) : pystr :=
  match Z.to_int z with
  | Pos u => uint_text u
  | Neg u => 45%N :: uint_text u
  end.

(** [json.dumps]: the chunks of [_iterencode] joined.  A list is ['[']
    followed by its items, each but the first after the item separator,
    and [']']; a dict likewise with ["key": value] items.  An object of
    another type raises [TypeError]. *)
Fixpoint dumps (v : value) : result pystr :=
  match v with
  | VNone => Ok (str "null")
  | VBool true => Ok (str "true")
  | VBool false => Ok (str "false")
  | VInt z => Ok (int_repr z)
  | VFloat literal => Ok literal
  | VStr s => Ok (encode_basestring_ascii s)
  | VList l =>
      match l with
      | [] => Ok (str "[]")
      | x :: r =>
          first <- dumps x ;;
          rest <- (fix items (l : list value) : result pystr :=
                     match l with
                     | [] => Ok (str "]")
                     | y :: r' =>
                         e <- dumps y ;;
                         es <- items r' ;;
                         Ok (str ", " ++ e ++ es)
                     end) r ;;
          Ok (str "[" ++ first ++ rest)
      end
  | VDict d =>
      match d with
      | [] => Ok (str "{}")
      | (k, x) :: r =>
          first <- dumps x ;;
          rest <- (fix items (d : list (pystr * value)) : result pystr :=
                     match d with
                     | [] => Ok (str "}")
                     | (k', y) :: r' =>
                         e <- dumps y ;;
                         es <- items r' ;;
                         Ok (str ", " ++ encode_basestring_ascii k'
                               ++ str ": " ++ e ++ es)
                     end) r ;;
          Ok (str "{" ++ encode_basestring_ascii k ++ str ": " ++ first ++ rest)
      end
  | VClient _ => Raise (TypeError NotSerializable)
  end.

(* ================================================================== *)
(** ** The [json] module: decoder *)

Definition is_ws (c : N) : bool :=
  ((c =? 32) || (c =? 9) || (c =? 10) || (c =? 13))%N.

(** [WHITESPACE.match(s, idx).end()]. *)
Fixpoint skip_ws (s : pystr) : pystr :=
  match s with
  | c :: r => if is_ws c then skip_ws r else s
  | [] => []
  end.

Definition hexval (c : N) : option N :=
  if ((48 <=? c) && (c <=? 57))%N then Some (c - 48)%N
  else if ((97 <=? c) && (c <=? 102))%N then Some (c - 87)%N
  else if ((65 <=? c) && (c <=? 70))%N then Some (c - 55)%N
  else None.

(** [_decode_uXXXX] on the four characters after [\u]. *)
Definition decode_hex4 (a b c d : N) : option N :=
  match hexval a, hexval b, hexval c, hexval d with
  | Some x, Some y, Some z, Some w => Some (((x * 16 + y) * 16 + z) * 16 + w)%N
  | _, _, _, _ => None
  end.

(** The table [BACKSLASH]. *)
Definition backslash (esc : N) : option N :=
  if (esc =? 34)%N then Some 34%N
  else if (esc =? 92)%N then Some 92%N
  else if (esc =? 47)%N then Some 47%N
  else if (esc =? 98)%N then Some 8%N
  else if (esc =? 102)%N then Some 12%N
  else if (esc =? 110)%N then Some 10%N
  else if (esc =? 114)%N then Some 13%N
  else if (esc =? 116)%N then Some 9%N
  else None.

Definition is_high_surrogate (u : N) : bool := ((55296 <=? u) && (u <=? 56319))%N.
Definition is_low_surrogate (u : N) : bool := ((56320 <=? u) && (u <=? 57343))%N.

(** [0x10000 + (((uni - 0xd800) << 10) | (uni2 - 0xdc00))]. *)
Definition join_surrogates (uni uni2 : N) : N :=
  (65536 + N.lor (N.shiftl (uni - 55296) 10) (uni2 - 56320))%N.

Definition push_char (c : N) (r : result (pystr * pystr)) : result (pystr * pystr) :=
  '(s, rest) <- r ;; Ok (c :: s, rest).

Definition unterminated : exn := JSONDecodeError "Unterminated string starting at".
Definition invalid_uXXXX : exn := JSONDecodeError "Invalid \uXXXX escape".

(** [scanstring(s, end)] in strict mode, [s] starting after the opening
    quote: the decoded string and what follows the closing quote. *)
Fixpoint scanstring (s : pystr) : result (pystr * pystr) :=
  match s with
  | [] => Raise unterminated
  | c :: s1 =>
      if (c =? 34)%N then Ok ([], s1)
      else if (c =? 92)%N then
        match s1 with
        | [] => Raise unterminated
        | esc :: s2 =>
            if (esc =? 117)%N then
              match s2 with
              | a :: b :: c' :: d :: s3 =>
                  match decode_hex4 a b c' d with
                  | None => Raise invalid_uXXXX
                  | Some uni =>
                      if is_high_surrogate uni then
                        match s3 with
                        | bs :: u :: s4 =>
                            if ((bs =? 92) && (u =? 117))%N then
                              match s4 with
                              | e :: f :: g :: h :: s5 =>
                                  match decode_hex4 e f g h with
                                  | None => Raise invalid_uXXXX
                                  | Some uni2 =>
                                      if is_low_surrogate uni2
                                      then push_char (join_surrogates uni uni2) (scanstring s5)
                                      else push_char uni (scanstring s3)
                                  end
                              | _ => Raise invalid_uXXXX
                              end
                            else push_char uni (scanstring s3)
                        | _ => push_char uni (scanstring s3)
                        end
                      else push_char uni (scanstring s3)
                  end
              | _ => Raise invalid_uXXXX
              end
            else
              match backslash esc with
              | Some ch => push_char ch (scanstring s2)
              | None => Raise (JSONDecodeError "Invalid \escape")
              end
        end
      else if (c <? 32)%N then Raise (JSONDecodeError "Invalid control character at")
      else push_char c (scanstring s1)
  end.

Definition is_digit (c : N) : bool := ((48 <=? c) && (c <=? 57))%N.

(** The longest run of digits at the head: [\d*]. *)
Fixpoint span_digits (s : pystr) : pystr * pystr :=
  match s with
  | c :: r =>
      if is_digit c
      then let (d, r') := span_digits r in (c :: d, r')
      else ([], s)
  | [] => ([], [])
  end.

(** The three groups of [NUMBER_RE] matched at the head: the integer
    part (an optional minus sign, then a lone zero or a digit from 1 to 9
    and any digits), the optional fraction (a dot and at least one
    digit) and the optional exponent (e or E, an optional sign and at
    least one digit). *)
Definition match_integer (s : pystr) : option (pystr * pystr) :=
  let (sign, s1) :=
    match s with
    | c :: r => if (c =? 45)%N then ([45%N], r) else ([], s)
    | [] => ([], s)
    end in
  match s1 with
  | c :: r =>
      if (c =? 48)%N then Some (sign ++ [c], r)
      else if is_digit c then let (d, r') := span_digits r in Some (sign ++ c :: d, r')
      else None
  | [] => None
  end.

Definition match_frac (s : pystr) : pystr * pystr :=
  match s with
  | c :: r =>
      if (c =? 46)%N then
        match span_digits r with
        | ([], _) => ([], s)
        | (d, r') => (c :: d, r')
        end
      else ([], s)
  | [] => ([], s)
  end.

Definition match_exp (s : pystr) : pystr * pystr :=
  match s with
  | c :: r =>
      if ((c =? 101) || (c =? 69))%N then
        let (sign, r1) :=
          match r with
          | c' :: r' => if ((c' =? 45) || (c' =? 43))%N then ([c'], r') else ([], r)
          | [] => ([], r)
          end in
        match span_digits r1 with
        | ([], _) => ([], s)
        | (d, r') => (c :: sign ++ d, r')
        end
      else ([], s)
  | [] => ([], s)
  end.

Definition match_number (s : pystr) : option (pystr * pystr * pystr * pystr) :=
  match match_integer s with
  | None => None
  | Some (integer, r) =>
      let (frac, r1) := match_frac r in
      let (exp, r2) := match_exp r1 in
      Some (integer, frac, exp, r2)
  end.

Definition digit_of_char (c : N) (r : uint) : uint :=
  match (c - 48)%N with
  | 0%N => D0 r | 1%N => D1 r | 2%N => D2 r | 3%N => D3 r | 4%N => D4 r
  | 5%N => D5 r | 6%N => D6 r | 7%N => D7 r | 8%N => D8 r | _ => D9 r
  end.

Fixpoint digits_uint (s : pystr) : uint :=
  match s with
  | [] => Nil
  | c :: r => digit_of_char c (digits_uint r)
  end.

(** [int(text)] on a text matched by the integer group of [NUMBER_RE]. *)
Definition parse_int (text : pystr) : Z :=
  match text with
  | c :: r =>
      if (c =? 45)%N then Z.opp (Z.of_uint (digits_uint r))
      else Z.of_uint (digits_uint text)
  | [] => 0%Z
  end.

(** [s[idx:idx+len(p)] == p]: what follows the prefix [p], if [s] has it. *)
Fixpoint strip_prefix (p s : pystr) : option pystr :=
  match p, s with
  | [], _ => Some s
  | a :: p', b :: s' => if (a =? b)%N then strip_prefix p' s' else None
  | _ :: _, [] => None
  end.

Definition expecting_value : exn := JSONDecodeError "Expecting value".
Definition expecting_comma : exn := JSONDecodeError "Expecting ',' delimiter".
Definition expecting_colon : exn := JSONDecodeError "Expecting ':' delimiter".
Definition expecting_name : exn :=
  JSONDecodeError "Expecting property name enclosed in double quotes".

(** The literals that [scan_once] tries after strings, objects and
    arrays: [null], [true], [false], a number, and the constants [NaN],
    [Infinity] and [-Infinity]. *)
Definition scan_atom (s : pystr) : result (value * pystr) :=
  match strip_prefix (str "null") s with
  | Some r => Ok (VNone, r)
  | None =>
  match strip_prefix (str "true") s with
  | Some r => Ok (VBool true, r)
  | None =>
  match strip_prefix (str "false") s with
  | Some r => Ok (VBool false, r)
  | None =>
  match match_number s with
  | Some (integer, frac, exp, r) =>
      match frac, exp with
      | [], [] => Ok (VInt (parse_int integer), r)
      | _, _ => Ok (VFloat (integer ++ frac ++ exp), r)
      end
  | None =>
  match strip_prefix (str "NaN") s with
  | Some r => Ok (VFloat (str "NaN"), r)
  | None =>
  match strip_prefix (str "Infinity") s with
  | Some r => Ok (VFloat (str "Infinity"), r)
  | None =>
  match strip_prefix (str "-Infinity") s with
  | Some r => Ok (VFloat (str "-Infinity"), r)
  | None => Raise expecting_value
  end end end end end end end.

(** [scan_once], with the loops of [JSONArray] and [JSONObject].  The
    recursion of the scanner is bounded by [fuel]; running out of it is
    [RecursionError].  [JSONArray_loop] is entered at the first item,
    [JSONObject_loop] after the opening quote of a key. *)
Fixpoint scan_once (fuel : nat) (s : pystr) {struct fuel} : result (value * pystr) :=
  match fuel with
  | O => Raise RecursionError
  | S fuel' =>
      match s with
      | [] => Raise expecting_value
      | c :: s1 =>
          if (c =? 34)%N then
            '(t, r) <- scanstring s1 ;; Ok (VStr t, r)
          else if (c =? 123)%N then
            match skip_ws s1 with
            | c' :: r =>
                if (c' =? 125)%N then Ok (VDict [], r)
                else if (c' =? 34)%N then JSONObject_loop fuel' [] r
                else Raise expecting_name
            | [] => Raise expecting_name
            end
          else if (c =? 91)%N then
            match skip_ws s1 with
            | c' :: r =>
                if (c' =? 93)%N then Ok (VList [], r)
                else JSONArray_loop fuel' [] (c' :: r)
            | [] => Raise expecting_value
            end
          else scan_atom s
      end
  end

with JSONArray_loop (fuel : nat) (values : list value) (s : pystr) {struct fuel}
  : result (value * pystr) :=
  match fuel with
  | O => Raise RecursionError
  | S fuel' =>
      '(v, r) <- scan_once fuel' s ;;
      match skip_ws r with
      | c :: r1 =>
          if (c =? 93)%N then Ok (VList (values ++ [v]), r1)
          else if (c =? 44)%N then JSONArray_loop fuel' (values ++ [v]) (skip_ws r1)
          else Raise expecting_comma
      | [] => Raise expecting_comma
      end
  end

with JSONObject_loop (fuel : nat) (pairs : list (pystr * value)) (s : pystr) {struct fuel}
  : result (value * pystr) :=
  match fuel with
  | O => Raise RecursionError
  | S fuel' =>
      '(key, r) <- scanstring s ;;
      match skip_ws r with
      | c :: r1 =>
          if (c =? 58)%N then
            '(v, r2) <- scan_once fuel' (skip_ws r1) ;;
            match skip_ws r2 with
            | c' :: r3 =>
                if (c' =? 125)%N then Ok (VDict (dict_of_pairs (pairs ++ [(key, v)])), r3)
                else if (c' =? 44)%N then
                  match skip_ws r3 with
                  | q :: r4 =>
                      if (q =? 34)%N then JSONObject_loop fuel' (pairs ++ [(key, v)]) r4
                      else Raise expecting_name
                  | [] => Raise expecting_name
                  end
                else Raise expecting_comma
            | [] => Raise expecting_comma
            end
          else Raise expecting_colon
      | [] => Raise expecting_colon
      end
  end.

(** [JSONDecoder.decode]: leading whitespace, one document, trailing
    whitespace, and nothing more.  The fuel exceeds what a text of this
    length can use (see [scan_adequate] and [loads_error]). *)
Definition decode (s : pystr) : result value :=
  '(obj, r) <- scan_once (2 * List.length s + 1) (skip_ws s) ;;
  match skip_ws r with
  | [] => Ok obj
  | _ :: _ => Raise (JSONDecodeError "Extra data")
  end.

(** [s.startswith('\ufeff')]. *)
Definition starts_with_bom (s : pystr) : bool :=
  match s with
  | c :: _ => (c =? 65279)%N
  | [] => false
  end.

(** [json.loads] of a [str], with the default decoder. *)
Definition loads (s : pystr) : result value :=
  if starts_with_bom s
  then Raise (JSONDecodeError "Unexpected UTF-8 BOM (decode using utf-8-sig)")
  else decode s.

(** A JSON text written with ['] standing for the double quote. *)
Definition json_text (s : string) : pystr :=
  map (fun c => if (c =? 39)%N then 34%N else c) (str s).

(* ================================================================== *)
(** ** Calls with keyword arguments

    The binding of the call [f(self, *pos, **kw)] to a signature
    [def f(self, p1, ..., pn, **kwargs)]: positional arguments fill the
    parameters in order; a keyword that names a parameter fills it, and
    is an error when the parameter already has a value; the other
    keywords are collected in [kwargs]; a parameter left without a value
    is an error. *)

Definition self_name : pystr := str "self".

Fixpoint bind_positional (params : list pystr) (pos : list value) : result dict :=
  match pos, params with
  | [], _ => Ok []
  | v :: pos', p :: params' =>
      bound <- bind_positional params' pos' ;; Ok ((p, v) :: bound)
  | _ :: _, [] => Raise (TypeError TooManyPositional)
  end.

Fixpoint bind_keywords (params : list pystr) (kw : dict) (bound kwargs : dict)
  : result (dict * dict) :=
  match kw with
  | [] => Ok (bound, kwargs)
  | (k, v) :: kw' =>
      if pystr_eqb k self_name then Raise (TypeError (MultipleValues k))
      else if existsb (pystr_eqb k) params then
        if has_key k bound then Raise (TypeError (MultipleValues k))
        else bind_keywords params kw' (dict_set k v bound) kwargs
      else bind_keywords params kw' bound (dict_set k v kwargs)
  end.

Definition bind_call (params : list pystr) (pos : list value) (kw : dict)
  : result (dict * dict) :=
  bound0 <- bind_positional params pos ;;
  '(bound, kwargs) <- bind_keywords params kw bound0 [] ;;
  match filter (fun p => negb (has_key p bound)) params with
  | [] => Ok (bound, kwargs)
  | missing => Raise (TypeError (MissingArguments missing))
  end.

(** The value bound to a parameter. *)
Definition arg (name : string) (bound : dict) : result value :=
  match dict_get (str name) bound with
  | Some v => Ok v
  | None => Raise (TypeError (MissingArguments [str name]))
  end.

(** [**v]: the argument after [**] must be a mapping. *)
Definition unpack_mapping (v : value) : result dict :=
  match v with
  | VDict d => Ok d
  | _ => Raise (TypeError NotAMapping)
  end.

(** [data.get(key, default)]: only a dict has the method. *)
Definition method_get (data : value) (key : string) (default : value) : result value :=
  match data with
  | VDict d =>
      Ok (match dict_get (str key) d with Some v => v | None => default end)
  | _ => Raise (AttributeError (str "get"))
  end.

(* ================================================================== *)
(** ** commands.py *)

Inductive cmd_class : Type :=
| BaseCommand
| ClientCommand
| ServerCommand
| ServerSideClientCommand
| ServerSideServerCommand.

(** An instance: its class and its attribute dictionary. *)
Record command : Type := mkCommand {
  class_of : cmd_class;
  __dict__ : dict
}.

Definition getattr (self : command) (name : string) : result value :=
  match dict_get (str name) (__dict__ self) with
  | Some v => Ok v
  | None => Raise (AttributeError (str name))
  end.

Definition setattr (self : command) (name : string) (v : value) : command :=
  mkCommand (class_of self) (dict_set (str name) v (__dict__ self)).

(** [BaseCommand.__init__(self, flag, **kwargs)], inherited by
    [ClientCommand] and [ServerCommand]. *)
Definition BaseCommand__init__ (self : command) (pos : list value) (kw : dict)
  : result command :=
  '(bound, kwargs) <- bind_call [str "flag"] pos kw ;;
  flag <- arg "flag" bound ;;
  let self := setattr self "flag" flag in
  let self := setattr self "args" (VDict kwargs) in
  Ok self.

(** [ServerSideClientCommand.__init__(self, flag, client, **kwargs)]:
    [super().__init__(flag, **kwargs)], then [self.client = client]. *)
Definition ServerSideClientCommand__init__ (self : command) (pos : list value) (kw : dict)
  : result command :=
  '(bound, kwargs) <- bind_call [str "flag"; str "client"] pos kw ;;
  flag <- arg "flag" bound ;;
  client <- arg "client" bound ;;
  self <- BaseCommand__init__ self [flag] kwargs ;;
  Ok (setattr self "client" client).

(** [ServerSideServerCommand.__init__(self, flag, client, **kwargs)],
    with the same body. *)
Definition ServerSideServerCommand__init__ (self : command) (pos : list value) (kw : dict)
  : result command :=
  '(bound, kwargs) <- bind_call [str "flag"; str "client"] pos kw ;;
  flag <- arg "flag" bound ;;
  client <- arg "client" bound ;;
  self <- BaseCommand__init__ self [flag] kwargs ;;
  Ok (setattr self "client" client).

(** Calling the class with positional arguments [pos] and keywords
    [kw]: a fresh instance initialised by the [__init__] that the class
    resolves to. *)
Definition new (cls : cmd_class) (pos : list value) (kw : dict) : result command :=
  let self := mkCommand cls [] in
  match cls with
  | BaseCommand | ClientCommand | ServerCommand => BaseCommand__init__ self pos kw
  | ServerSideClientCommand => ServerSideClientCommand__init__ self pos kw
  | ServerSideServerCommand => ServerSideServerCommand__init__ self pos kw
  end.

(** [BaseCommand.serialize]: [json.dumps(self.__dict__)]. *)
Definition serialize (self : command) : result pystr :=
  dumps (VDict (__dict__ self)).

(** [BaseCommand.deserialize], a class method:
    [data = json.loads(serial)], then
    [cls(data.get("flag"), **data.get("args", {}))]. *)
Definition deserialize (cls : cmd_class) (serial : pystr) : result command :=
  data <- loads serial ;;
  flag <- method_get data "flag" VNone ;;
  args <- method_get data "args" (VDict []) ;;
  kw <- unpack_mapping args ;;
  new cls [flag] kw.

(** [ServerSideClientCommand.from_client_cmd]:
    [cls(cmd.flag, client, **cmd.args)]. *)
Definition from_client_cmd (cmd : command) (client : value) : result command :=
  flag <- getattr cmd "flag" ;;
  args <- getattr cmd "args" ;;
  kw <- unpack_mapping args ;;
  new ServerSideClientCommand [flag; client] kw.

(** [ServerSideServerCommand.to_client_cmd]:
    [ServerCommand(self.flag, **self.args)]. *)
Definition to_client_cmd (self : command) : result command :=
  flag <- getattr self "flag" ;;
  args <- getattr self "args" ;;
  kw <- unpack_mapping args ;;
  new ServerCommand [flag] kw.

(** The spec's [Deserialize(Serialize(Construct(flag, args)))]. *)
Definition round_trip (cls : cmd_class) (flag : value) (args : dict) : result command :=
  cmd <- new cls [flag] args ;;
  text <- serialize cmd ;;
  deserialize cls text.


Definition is_server_side (cls : cmd_class) : bool :=
  match cls with
  | ServerSideClientCommand | ServerSideServerCommand => true
  | _ => false
  end.

(* ================================================================== *)
(** ** The socket layer

    What the transport sees of the operating system: the addresses that
    cannot be bound, the connections that arrive at the listening socket
    (accepting blocks when none is left), and for each accepted connection
    the chunks it will deliver and the data written to it so far. *)

Definition bytes := list Byte.byte.
Definition address := (pystr * Z)%type.

Definition address_eqb (a b : address) : bool :=
  pystr_eqb (fst a) (fst b) && Z.eqb (snd a) (snd b).

Record network : Type := mkNetwork {
  in_use : list address;
  incoming : list (nat * address);
  readable : list (nat * list bytes);
  written : list (nat * bytes)
}.

(** The listening socket [self.conn]. *)
Record socket : Type := mkSocket {
  sock_name : option address;
  sock_backlog : option Z
}.

(** [socket.bind(addr)]. *)
Definition sock_bind (s : socket) (a : address) (net : network) : result socket :=
  match sock_name s with
  | Some _ => Raise (OSError "Invalid argument")
  | None =>
      if existsb (address_eqb a) (in_use net)
      then Raise (OSError "Address already in use")
      else Ok (mkSocket (Some a) (sock_backlog s))
  end.

(** [socket.listen(backlog)]. *)
Definition sock_listen (s : socket) (backlog : Z) : socket :=
  mkSocket (sock_name s) (Some backlog).

Fixpoint take_chunk (c : nat) (size : nat) (r : list (nat * list bytes))
  : option (bytes * list (nat * list bytes)) :=
  match r with
  | [] => None
  | (c', chunks) :: r' =>
      if Nat.eqb c c' then
        match chunks with
        | [] => None
        | chunk :: more =>
            let rest := skipn size chunk in
            Some (firstn size chunk,
                  (c', match rest with [] => more | _ => rest :: more end) :: r')
        end
      else
        match take_chunk c size r' with
        | Some (b, r'') => Some (b, (c', chunks) :: r'')
        | None => None
        end
  end.

(* ================================================================== *)
(** ** server.py *)

Record NetworkServerBase : Type := mkServer {
  server_conn : socket;
  _binded : bool;
  addr : option address;
  clients : list ClientBase
}.

(** How a call on the transport ends: it returns, it raises, or it
    blocks for ever on the socket.  Each carries the transport and the
    network as the call leaves them. *)
Inductive outcome (A : Type) : Type :=
| Returns (a : A) (self : NetworkServerBase) (net : network)
| Raises (e : exn) (self : NetworkServerBase) (net : network)
| Blocks (self : NetworkServerBase) (net : network).

Arguments Returns {A} a self net.
Arguments Raises {A} e self net.
Arguments Blocks {A} self net.

Definition not_binded : exn := ConnectionError "Not binded to any addr".
Definition not_connected : exn := ConnectionError "Client not connected".

(** [is_binded]. *)
Definition is_binded (self : NetworkServerBase) : bool := _binded self.

(** [bind(host, port)]: [self.addr] is set before the socket is bound,
    [self._binded] after. *)
Definition bind (self : NetworkServerBase) (host : pystr) (port : Z) (net : network)
  : outcome socket :=
  let self := mkServer (server_conn self) (_binded self) (Some (host, port)) (clients self) in
  match sock_bind (server_conn self) (host, port) net with
  | Raise e => Raises e self net
  | Ok s =>
      let self := mkServer s true (addr self) (clients self) in
      Returns s self net
  end.

(** The truth value of a [str] and of an [int]; [None] is false. *)
Definition truthy_str (s : pystr) : bool :=
  match s with
  | [] => false
  | _ :: _ => true
  end.

Definition truthy_int (z : Z) : bool := negb (Z.eqb z 0).

(** [NetworkServerBase.__init__(host=None, port=None, auto_bind=True)]:
    a fresh socket, no address, an empty roster, and
    [if auto_bind: if host and port: self.bind(host, port)]. *)
Definition NetworkServerBase__init__ (host : option pystr) (port : option Z)
    (auto_bind : bool) (net : network) : outcome unit :=
  let self := mkServer (mkSocket None None) false None [] in
  if auto_bind then
    match host, port with
    | Some h, Some p =>
        if truthy_str h && truthy_int p then
          match bind self h p net with
          | Returns _ self net => Returns tt self net
          | Raises e self net => Raises e self net
          | Blocks self net => Blocks self net
          end
        else Returns tt self net
    | _, _ => Returns tt self net
    end
  else Returns tt self net.

(** The loop of [_accept]:
    [while len(self.clients) < amount: self.clients.append(...accept())].
    It ends with the roster and the connections not yet accepted, and
    tells whether it came to wait on an empty queue. *)
Fixpoint accept_loop (amount : Z) (roster : list ClientBase)
    (queue : list (nat * address)) : list ClientBase * list (nat * address) * bool :=
  if (Z.of_nat (List.length roster) <? amount)%Z then
    match queue with
    | [] => (roster, [], true)
    | c :: queue' => accept_loop amount (roster ++ [from_accept c]) queue'
    end
  else (roster, queue, false).

(** [_accept(amount=1)]. *)
Definition _accept (self : NetworkServerBase) (amount : Z) (net : network)
  : outcome unit :=
  if negb (is_binded self) then Raises not_binded self net
  else
    let listening := sock_listen (server_conn self) amount in
    let '(roster, queue, waits) := accept_loop amount (clients self) (incoming net) in
    let self := mkServer listening (_binded self) (addr self) roster in
    let net := mkNetwork (in_use net) queue (readable net) (written net) in
    if waits then Blocks self net else Returns tt self net.

(** [client not in self.clients]. *)
Definition not_in_roster (client : ClientBase) (self : NetworkServerBase) : bool :=
  if in_dec ClientBase_eq_dec client (clients self) then false else true.

(** [_recv(size, client)]: [client.conn.recv(size)] hands over at most
    [size] bytes of the next chunk of the connection, and blocks when
    nothing is to come. *)
Definition _recv (self : NetworkServerBase) (size : Z) (client : ClientBase)
    (net : network) : outcome bytes :=
  if negb (is_binded self) then Raises not_binded self net
  else if not_in_roster client self then Raises not_connected self net
  else if (size <? 0)%Z then Raises (ValueError "negative buffersize in recv") self net
  else
    match take_chunk (conn client) (Z.to_nat size) (readable net) with
    | Some (data, readable') =>
        Returns data self (mkNetwork (in_use net) (incoming net) readable' (written net))
    | None => Blocks self net
    end.

(** [_send(data, client)]: [client.conn.send(data)]. *)
Definition _send (self : NetworkServerBase) (data : bytes) (client : ClientBase)
    (net : network) : outcome unit :=
  if negb (is_binded self) then Raises not_binded self net
  else if not_in_roster client self then Raises not_connected self net
  else
    Returns tt self
      (mkNetwork (in_use net) (incoming net) (readable net)
                 (written net ++ [(conn client, data)])).

(* ================================================================== *)
(** ** JSON-representable values *)

(** A [str] that survives [json]: code points up to U+10FFFF, and no
    high surrogate immediately followed by a low surrogate (the encoder
    writes the two as two escapes, which the decoder reads back as one
    character). *)
Fixpoint str_ok (s : pystr) : bool :=
  match s with
  | [] => true
  | c :: r =>
      (c <=? 1114111)%N
      && negb (is_high_surrogate c
               && match r with c' :: _ => is_low_surrogate c' | [] => false end)
      && str_ok r
  end.

Fixpoint distinct (l : list pystr) : bool :=
  match l with
  | [] => true
  | k :: r => negb (existsb (pystr_eqb k) r) && distinct r
  end.

(** The values of the JSON data model that the embedding covers: [None],
    booleans, integers, strings, lists, and dicts with distinct string
    keys (as every dict has).  Floats and peer handles are left out. *)
Fixpoint json_ok (v : value) : bool :=
  match v with
  | VNone | VBool _ | VInt _ => true
  | VFloat _ => false
  | VStr s => str_ok s
  | VList l => forallb json_ok l
  | VDict d =>
      forallb (fun kv => match kv with (k, x) => str_ok k && json_ok x end) d
      && distinct (map fst d)
  | VClient _ => false
  end.

(** The items of a list after the first, as [dumps] writes them. *)
Fixpoint dumps_items (l : list value) : result pystr :=
  match l with
  | [] => Ok (str "]")
  | y :: r' =>
      e <- dumps y ;;
      es <- dumps_items r' ;;
      Ok (str ", " ++ e ++ es)
  end.

(** The items of a dict after the first, as [dumps] writes them. *)
Fixpoint dumps_pairs (d : list (pystr * value)) : result pystr :=
  match d with
  | [] => Ok (str "}")
  | (k', y) :: r' =>
      e <- dumps y ;;
      es <- dumps_pairs r' ;;
      Ok (str ", " ++ encode_basestring_ascii k' ++ str ": " ++ e ++ es)
  end.



(* ================================================================== *)
(** ** Notions used by the proofs *)

(** The text begins no escape that the decoder would join to a preceding
    high surrogate. *)
Definition low_escape_free (t : pystr) : bool :=
  match t with
  | bs :: u :: r =>
      if ((bs =? 92) && (u =? 117))%N then
        match r with
        | e :: f :: g :: h :: _ =>
            match decode_hex4 e f g h with
            | Some u2 => negb (is_low_surrogate u2)
            | None => false
            end
        | _ => false
        end
      else true
  | _ => true
  end.





(** A bound transport with two peers, and a network where two more
    connections wait. *)
Definition sample_server : NetworkServerBase :=
  mkServer (mkSocket (Some (str "localhost", 5000%Z)) None) true
           (Some (str "localhost", 5000%Z))
           [mkClient 1 (str "10.0.0.1", 40001%Z); mkClient 2 (str "10.0.0.2", 40002%Z)].

Definition sample_network : network :=
  mkNetwork [] [(3, (str "10.0.0.3", 40003%Z)); (4, (str "10.0.0.4", 40004%Z))] [] [].

(* ================================================================== *)
(** ** The [__repr__] methods *)













(* ================================================================== *)
(** ** Sequences of calls on a transport *)

Inductive call : Type :=
| Bind (host : pystr) (port : Z)
| Accept (amount : Z)
| Recv (size : Z) (client : ClientBase)
| Send (data : bytes) (client : ClientBase).

(** The transport and the network as a call leaves them, however it
    ends. *)
Definition left_by {A : Type} (o : outcome A) : NetworkServerBase * network :=
  match o with
  | Returns _ self net => (self, net)
  | Raises _ self net => (self, net)
  | Blocks self net => (self, net)
  end.

Definition run (st : NetworkServerBase * network) (c : call)
  : NetworkServerBase * network :=
  match c with
  | Bind host port => left_by (bind (fst st) host port (snd st))
  | Accept amount => left_by (_accept (fst st) amount (snd st))
  | Recv size client => left_by (_recv (fst st) size client (snd st))
  | Send data client => left_by (_send (fst st) data client (snd st))
  end.

(** A transport is constructed, and then used by any calls in turn. *)
Definition history (host : option pystr) (port : option Z) (auto_bind : bool)
    (net : network) (calls : list call) : NetworkServerBase * network :=
  fold_left run calls (left_by (NetworkServerBase__init__ host port auto_bind net)).

(** What holds of a transport at any time: it is marked bound exactly
    when its socket has a name, and a bound transport has an address. *)
Definition consistent (self : NetworkServerBase) : Prop :=
  (_binded self = true <-> sock_name (server_conn self) <> None)
  /\ (_binded self = true -> addr self <> None).

(** Every dict inside the value has distinct keys. *)
Fixpoint distinct_keys (v : value) : bool :=
  match v with
  | VList l => forallb distinct_keys l
  | VDict d =>
      forallb (fun kv => match kv with (_, x) => distinct_keys x end) d
      && distinct (map fst d)
  | _ => true
  end.




(** A text of printable ASCII characters only: no control character, no
    line break, nothing above [~]. *)
Definition printable (t : pystr) : Prop :=
  Forall (fun c => (32 <= c <= 126)%N) t.

(** [dumps] writes printable ASCII for a JSON-representable value. *)
Definition writes_printable (v : value) : Prop :=
  json_ok v = true -> forall t, dumps v = Ok t -> printable t.

(* ================================================================== *)
(** * Properties *)

(** Deciding comparisons of characters from the bounds at hand. *)
Ltac char_tests :=
  repeat match goal with
  | |- context [N.eqb ?a ?b] =>
      first [ replace (N.eqb a b) with false by (symmetry; apply N.eqb_neq; lia)
            | replace (N.eqb a b) with true by (symmetry; apply N.eqb_eq; lia) ]
  | |- context [N.ltb ?a ?b] =>
      first [ replace (N.ltb a b) with false by (symmetry; apply N.ltb_ge; lia)
            | replace (N.ltb a b) with true by (symmetry; apply N.ltb_lt; lia) ]
  | |- context [N.leb ?a ?b] =>
      first [ replace (N.leb a b) with false by (symmetry; apply N.leb_gt; lia)
            | replace (N.leb a b) with true by (symmetry; apply N.leb_le; lia) ]
  end.




(** ** Strings of the encoder are read back by the decoder *)

Lemma hexval_hexdigit (k : N) : (k < 16)%N -> hexval (hexdigit k) = Some k.
Proof.
  intros H.
  assert (Hc : (k = 0 \/ k = 1 \/ k = 2 \/ k = 3 \/ k = 4 \/ k = 5 \/ k = 6
               \/ k = 7 \/ k = 8 \/ k = 9 \/ k = 10 \/ k = 11 \/ k = 12
               \/ k = 13 \/ k = 14 \/ k = 15)%N) by lia.
  repeat (destruct Hc as [-> | Hc]; [reflexivity |]).
  subst k. reflexivity.
Qed.

Lemma decode_hex4_hex4 (n : N) :
  (n < 65536)%N ->
  decode_hex4 (hexdigit ((n / 4096) mod 16)) (hexdigit ((n / 256) mod 16))
              (hexdigit ((n / 16) mod 16)) (hexdigit (n mod 16)) = Some n.
Proof.
  intros H. unfold decode_hex4.
  assert (H16 : (16 <> 0)%N) by lia.
  rewrite !hexval_hexdigit by (apply N.mod_lt; lia).
  f_equal.
  pose proof (N.div_mod n 16 H16) as E0.
  pose proof (N.div_mod (n / 16) 16 H16) as E1.
  pose proof (N.div_mod (n / 16 / 16) 16 H16) as E2.
  pose proof (N.mod_lt n 16 H16).
  pose proof (N.mod_lt (n / 16) 16 H16).
  pose proof (N.mod_lt (n / 16 / 16) 16 H16).
  assert (D2 : (n / 256 = n / 16 / 16)%N) by (rewrite N.Div0.div_div; reflexivity).
  assert (D3 : (n / 4096 = n / 16 / 16 / 16)%N) by (rewrite !N.Div0.div_div; reflexivity).
  assert (S3 : (n / 4096 < 16)%N) by (apply N.Div0.div_lt_upper_bound; lia).
  rewrite (N.mod_small (n / 4096) 16) by exact S3.
  pose proof (N.div_mod (n / 16 / 16) 16 H16) as E3.
  rewrite D2, D3 in *.
  lia.
Qed.

(** [a | x] adds [x] when [a] has no bit among the low [k]. *)
Lemma lor_low_bits (a x k : N) :
  N.land a (N.ones k) = 0%N -> (x < 2 ^ k)%N -> N.lor a x = (a + x)%N.
Proof.
  intros Ha Hx.
  assert (Hland : N.land a x = 0%N).
  { rewrite <- (N.mod_small x (2 ^ k)) by exact Hx.
    rewrite <- N.land_ones, (N.land_comm x), N.land_assoc, Ha.
    apply N.land_0_l. }
  rewrite <- N.lxor_lor by exact Hland.
  symmetry. apply N.add_nocarry_lxor. exact Hland.
Qed.

(** The surrogate pair that the encoder writes for a code point above the
    basic plane, and its reading by the decoder. *)
Lemma surrogate_pair (c : N) :
  (65536 <= c <= 1114111)%N ->
  let n := (c - 65536)%N in
  let s1 := N.lor 55296 (N.land (N.shiftr n 10) 1023) in
  let s2 := N.lor 56320 (N.land n 1023) in
  (s1 < 65536)%N /\ (s2 < 65536)%N /\
  is_high_surrogate s1 = true /\ is_low_surrogate s2 = true /\
  join_surrogates s1 s2 = c.
Proof.
  intros Hc n s1 s2.
  assert (Hn : (n < 1048576)%N) by (unfold n; lia).
  assert (Hhi : N.land (N.shiftr n 10) 1023 = (n / 1024)%N).
  { change 1023%N with (N.ones 10). rewrite N.land_ones, N.shiftr_div_pow2.
    change (2 ^ 10)%N with 1024%N. apply N.mod_small.
    apply N.Div0.div_lt_upper_bound. lia. }
  assert (Hlo : N.land n 1023 = (n mod 1024)%N).
  { change 1023%N with (N.ones 10). rewrite N.land_ones. reflexivity. }
  assert (Bhi : (n / 1024 < 1024)%N) by (apply N.Div0.div_lt_upper_bound; lia).
  assert (Blo : (n mod 1024 < 1024)%N) by (apply N.mod_lt; lia).
  assert (E1 : s1 = (55296 + n / 1024)%N).
  { unfold s1. rewrite Hhi. apply (lor_low_bits 55296 (n / 1024) 10); [reflexivity | exact Bhi]. }
  assert (E2 : s2 = (56320 + n mod 1024)%N).
  { unfold s2. rewrite Hlo. apply (lor_low_bits 56320 (n mod 1024) 10); [reflexivity | exact Blo]. }
  repeat split.
  - lia.
  - lia.
  - unfold is_high_surrogate. apply andb_true_iff. split; apply N.leb_le; lia.
  - unfold is_low_surrogate. apply andb_true_iff. split; apply N.leb_le; lia.
  - unfold join_surrogates. rewrite E1, E2.
    replace (55296 + n / 1024 - 55296)%N with (n / 1024)%N by lia.
    replace (56320 + n mod 1024 - 56320)%N with (n mod 1024)%N by lia.
    rewrite (lor_low_bits (N.shiftl (n / 1024) 10) (n mod 1024) 10).
    + rewrite N.shiftl_mul_pow2. change (2 ^ 10)%N with 1024%N.
      pose proof (N.div_mod n 1024). unfold n in *. lia.
    + rewrite N.land_ones, N.shiftl_mul_pow2. apply N.Div0.mod_mul.
    + exact Blo.
Qed.

Lemma scanstring_plain (c : N) (t : pystr) :
  c <> 34%N -> c <> 92%N -> (32 <= c)%N ->
  scanstring (c :: t) = push_char c (scanstring t).
Proof.
  intros H1 H2 H3. cbn [scanstring]. char_tests. reflexivity.
Qed.

Lemma scanstring_short (esc ch : N) (t : pystr) :
  esc <> 117%N -> backslash esc = Some ch ->
  scanstring (92%N :: esc :: t) = push_char ch (scanstring t).
Proof.
  intros H1 H2. cbn [scanstring]. cbn [N.eqb Pos.eqb].
  replace (N.eqb esc 117) with false by (symmetry; apply N.eqb_neq; exact H1).
  rewrite H2. reflexivity.
Qed.

Lemma scanstring_u (a b c d uni : N) (t : pystr) :
  decode_hex4 a b c d = Some uni ->
  (is_high_surrogate uni = true -> low_escape_free t = true) ->
  scanstring (92 :: 117 :: a :: b :: c :: d :: t)%N = push_char uni (scanstring t).
Proof.
  intros Hd Hfree. cbn [scanstring N.eqb Pos.eqb]. rewrite Hd.
  destruct (is_high_surrogate uni); [| reflexivity].
  specialize (Hfree eq_refl).
  destruct t as [| bs [| u r]]; try reflexivity.
  unfold low_escape_free in Hfree.
  destruct ((bs =? 92) && (u =? 117))%N; [| reflexivity].
  destruct r as [| e [| f [| g [| h r]]]]; try discriminate.
  destruct (decode_hex4 e f g h) as [u2 |]; [| discriminate].
  destruct (is_low_surrogate u2); [discriminate | reflexivity].
Qed.

Lemma scanstring_pair (a b c d e f g h s1 s2 : N) (t : pystr) :
  decode_hex4 a b c d = Some s1 -> is_high_surrogate s1 = true ->
  decode_hex4 e f g h = Some s2 -> is_low_surrogate s2 = true ->
  scanstring (92 :: 117 :: a :: b :: c :: d :: 92 :: 117 :: e :: f :: g :: h :: t)%N
  = push_char (join_surrogates s1 s2) (scanstring t).
Proof.
  intros H1 H2 H3 H4. cbn [scanstring N.eqb Pos.eqb andb].
  rewrite H1, H2, H3, H4. reflexivity.
Qed.

Lemma escape_char_scan (c : N) (t : pystr) :
  (c <= 1114111)%N ->
  (is_high_surrogate c = true -> low_escape_free t = true) ->
  scanstring (escape_char c ++ t) = push_char c (scanstring t).
Proof.
  intros Hc Hfree. unfold escape_char.
  destruct (N.eqb_spec c 34) as [-> | N1]; [reflexivity |].
  destruct (N.eqb_spec c 92) as [-> | N2]; [reflexivity |].
  destruct (N.eqb_spec c 10) as [-> | N3]; [reflexivity |].
  destruct (N.eqb_spec c 13) as [-> | N4]; [reflexivity |].
  destruct (N.eqb_spec c 9) as [-> | N5]; [reflexivity |].
  destruct (N.eqb_spec c 8) as [-> | N6]; [reflexivity |].
  destruct (N.eqb_spec c 12) as [-> | N7]; [reflexivity |].
  destruct ((32 <=? c) && (c <=? 126))%N eqn:Hp.
  - apply andb_true_iff in Hp. destruct Hp as [Hp _]. apply N.leb_le in Hp.
    apply scanstring_plain; assumption.
  - destruct (N.ltb_spec c 65536) as [Hlt | Hge].
    + unfold hex4. cbn [List.app].
      apply scanstring_u; [apply decode_hex4_hex4; exact Hlt | exact Hfree].
    + destruct (surrogate_pair c (conj Hge Hc)) as (B1 & B2 & H1 & H2 & J).
      cbv zeta. unfold hex4. cbn [List.app].
      rewrite (scanstring_pair _ _ _ _ _ _ _ _ _ _ t
                 (decode_hex4_hex4 _ B1) H1 (decode_hex4_hex4 _ B2) H2).
      rewrite J. reflexivity.
Qed.

Lemma escape_char_low_free (c : N) (t : pystr) :
  (c <= 1114111)%N -> is_low_surrogate c = false ->
  low_escape_free (escape_char c ++ t) = true.
Proof.
  intros Hc Hlow. unfold escape_char.
  destruct (N.eqb_spec c 34) as [-> | N1]; [reflexivity |].
  destruct (N.eqb_spec c 92) as [-> | N2]; [reflexivity |].
  destruct (N.eqb_spec c 10) as [-> | N3]; [reflexivity |].
  destruct (N.eqb_spec c 13) as [-> | N4]; [reflexivity |].
  destruct (N.eqb_spec c 9) as [-> | N5]; [reflexivity |].
  destruct (N.eqb_spec c 8) as [-> | N6]; [reflexivity |].
  destruct (N.eqb_spec c 12) as [-> | N7]; [reflexivity |].
  destruct ((32 <=? c) && (c <=? 126))%N eqn:Hp.
  - cbn [List.app]. unfold low_escape_free. destruct t as [| u r]; [reflexivity |].
    replace (N.eqb c 92) with false by (symmetry; apply N.eqb_neq; exact N2).
    reflexivity.
  - destruct (N.ltb_spec c 65536) as [Hlt | Hge].
    + unfold hex4. cbn [List.app]. unfold low_escape_free. cbn [N.eqb Pos.eqb andb].
      rewrite decode_hex4_hex4 by exact Hlt. rewrite Hlow. reflexivity.
    + destruct (surrogate_pair c (conj Hge Hc)) as (B1 & B2 & H1 & H2 & J).
      cbv zeta. unfold hex4. cbn [List.app]. unfold low_escape_free. cbn [N.eqb Pos.eqb andb].
      rewrite decode_hex4_hex4 by exact B1.
      unfold is_high_surrogate in H1. unfold is_low_surrogate.
      apply andb_true_iff in H1. destruct H1 as [_ H1]. apply N.leb_le in H1.
      char_tests. reflexivity.
Qed.

(** A string written by the encoder is read back by [scanstring]. *)
Lemma scanstring_escape (s rest : pystr) :
  str_ok s = true ->
  scanstring (flat_map escape_char s ++ 34%N :: rest) = Ok (s, rest).
Proof.
  induction s as [| c s IH]; intros Hok.
  - reflexivity.
  - cbn [str_ok] in Hok. apply andb_true_iff in Hok. destruct Hok as [Hok Hs].
    apply andb_true_iff in Hok. destruct Hok as [Hc Hsur].
    apply N.leb_le in Hc.
    cbn [flat_map]. rewrite <- List.app_assoc.
    rewrite escape_char_scan; [rewrite (IH Hs); reflexivity | exact Hc |].
    intros Hhigh. rewrite Hhigh in Hsur. cbn [andb] in Hsur.
    destruct s as [| c' s']; [destruct rest; reflexivity |].
    cbn [flat_map]. rewrite <- List.app_assoc.
    cbn [str_ok] in Hs. apply andb_true_iff in Hs. destruct Hs as [Hs _].
    apply andb_true_iff in Hs. destruct Hs as [Hc' _]. apply N.leb_le in Hc'.
    apply escape_char_low_free; [exact Hc' |].
    destruct (is_low_surrogate c'); [discriminate | reflexivity].
Qed.

Lemma scanstring_encoded (s rest : pystr) :
  str_ok s = true ->
  exists body, encode_basestring_ascii s = 34%N :: body
               /\ scanstring (body ++ rest) = Ok (s, rest).
Proof.
  intros Hok. exists (flat_map escape_char s ++ [34%N]). split; [reflexivity |].
  rewrite <- List.app_assoc. apply scanstring_escape. exact Hok.
Qed.

(** ** Integers of the encoder are read back by the decoder *)










(** ** Dicts *)

Lemma pystr_eqb_eq (a b : pystr) : pystr_eqb a b = true <-> a = b.
Proof.
  unfold pystr_eqb. destruct (pystr_eq_dec a b); split; congruence.
Qed.

Lemma pystr_eqb_refl (a : pystr) : pystr_eqb a a = true.
Proof. apply pystr_eqb_eq. reflexivity. Qed.

Lemma pystr_eqb_neq (a b : pystr) : pystr_eqb a b = false <-> a <> b.
Proof.
  unfold pystr_eqb. destruct (pystr_eq_dec a b); split; congruence.
Qed.

Lemma existsb_pystr_In (k : pystr) (l : list pystr) :
  existsb (pystr_eqb k) l = true <-> In k l.
Proof.
  rewrite existsb_exists. split.
  - intros (x & Hin & He). apply pystr_eqb_eq in He. subst. exact Hin.
  - intros Hin. exists k. split; [exact Hin | apply pystr_eqb_refl].
Qed.

Lemma existsb_pystr_not_In (k : pystr) (l : list pystr) :
  existsb (pystr_eqb k) l = false <-> ~ In k l.
Proof.
  rewrite <- existsb_pystr_In. destruct (existsb (pystr_eqb k) l); split; congruence.
Qed.

Lemma distinct_NoDup (l : list pystr) : distinct l = true <-> NoDup l.
Proof.
  induction l as [| k r IH]; cbn [distinct].
  - split; [constructor | reflexivity].
  - rewrite andb_true_iff, negb_true_iff, existsb_pystr_not_In, IH. split.
    + intros [H1 H2]. constructor; assumption.
    + intros H. inversion H. split; assumption.
Qed.

Lemma has_key_In (k : pystr) (d : dict) : has_key k d = true <-> In k (keys d).
Proof.
  unfold has_key, keys. induction d as [| [k' v] r IH]; cbn [dict_get map fst In].
  - split; [discriminate | tauto].
  - destruct (pystr_eqb k k') eqn:E.
    + apply pystr_eqb_eq in E. subst. split; auto.
    + apply pystr_eqb_neq in E. rewrite IH. split; [auto | intros [H | H]; congruence].
Qed.

Lemma has_key_not_In (k : pystr) (d : dict) : has_key k d = false <-> ~ In k (keys d).
Proof.
  rewrite <- has_key_In. destruct (has_key k d); split; congruence.
Qed.

Lemma dict_set_fresh (k : pystr) (v : value) (d : dict) :
  ~ In k (keys d) -> dict_set k v d = d ++ [(k, v)].
Proof.
  unfold keys. induction d as [| [k' v'] r IH]; intros Hn; cbn [dict_set List.app].
  - reflexivity.
  - cbn [map fst In] in Hn.
    destruct (pystr_eqb k k') eqn:E.
    + apply pystr_eqb_eq in E. subst. tauto.
    + rewrite IH by tauto. reflexivity.
Qed.

Lemma keys_dict_set (k : pystr) (v : value) (d : dict) (k0 : pystr) :
  In k0 (keys (dict_set k v d)) <-> k0 = k \/ In k0 (keys d).
Proof.
  unfold keys. induction d as [| [k' v'] r IH]; cbn [dict_set map fst In].
  - intuition congruence.
  - destruct (pystr_eqb k k') eqn:E; cbn [map fst In].
    + apply pystr_eqb_eq in E. subst. intuition congruence.
    + rewrite IH. intuition congruence.
Qed.



(** ** Values of the encoder are read back by the decoder *)





(** Induction on values, with the hypothesis for every item of a list
    and for every value of a dict. *)
Lemma value_nested_ind (P : value -> Prop) :
  P VNone ->
  (forall b, P (VBool b)) ->
  (forall z, P (VInt z)) ->
  (forall t, P (VFloat t)) ->
  (forall s, P (VStr s)) ->
  (forall l, Forall P l -> P (VList l)) ->
  (forall d, Forall (fun kv => P (snd kv)) d -> P (VDict d)) ->
  (forall c, P (VClient c)) ->
  forall v, P v.
Proof.
  intros HNone HBool HInt HFloat HStr HList HDict HClient.
  fix IH 1. intros [| b | z | t | s | l | d | c].
  - exact HNone.
  - apply HBool.
  - apply HInt.
  - apply HFloat.
  - apply HStr.
  - apply HList. induction l as [| x r IHr]; constructor; [apply IH | exact IHr].
  - apply HDict. induction d as [| [k x] r IHr]; constructor; [apply IH | exact IHr].
  - apply HClient.
Qed.



Lemma dumps_list_cons (x : value) (r : list value) :
  dumps (VList (x :: r))
  = (first <- dumps x ;; rest <- dumps_items r ;; Ok (str "[" ++ first ++ rest)).
Proof. reflexivity. Qed.

Lemma dumps_dict_cons (k : pystr) (x : value) (r : list (pystr * value)) :
  dumps (VDict ((k, x) :: r))
  = (first <- dumps x ;; rest <- dumps_pairs r ;;
     Ok (str "{" ++ encode_basestring_ascii k ++ str ": " ++ first ++ rest)).
Proof. reflexivity. Qed.



(** ** Keyword arguments *)

Lemma bind_keywords_kwargs (params : list pystr) (kw bound kwargs : dict) :
  (forall k, In k (keys kw) -> k <> self_name /\ ~ In k params) ->
  NoDup (keys (kwargs ++ kw)) ->
  bind_keywords params kw bound kwargs = Ok (bound, kwargs ++ kw).
Proof.
  revert kwargs. induction kw as [| [k v] kw IH]; intros kwargs Hfree Hnd.
  - rewrite List.app_nil_r. reflexivity.
  - cbn [bind_keywords].
    destruct (Hfree k (or_introl eq_refl)) as [Hself Hpar].
    apply pystr_eqb_neq in Hself. rewrite Hself.
    apply existsb_pystr_not_In in Hpar. rewrite Hpar.
    assert (Hfresh : ~ In k (keys kwargs)).
    { unfold keys in *. rewrite map_app in Hnd. cbn [map fst] in Hnd.
      apply NoDup_remove_2 in Hnd. intros Hin. apply Hnd.
      apply in_or_app. left. exact Hin. }
    rewrite dict_set_fresh by exact Hfresh.
    rewrite IH.
    + rewrite <- List.app_assoc. reflexivity.
    + intros k0 Hk0. apply Hfree. right. exact Hk0.
    + rewrite <- List.app_assoc. exact Hnd.
Qed.

(** A keyword that names [self] or a parameter bound by position makes
    the call fail with "got multiple values for argument". *)
Lemma bind_keywords_collision (params : list pystr) (kw bound kwargs : dict) (k : pystr) :
  In k (keys kw) ->
  k = self_name \/ (In k params /\ In k (keys bound)) ->
  exists name, bind_keywords params kw bound kwargs = Raise (TypeError (MultipleValues name)).
Proof.
  revert bound kwargs. induction kw as [| [k' v] kw IH]; intros bound kwargs Hin Hk.
  - contradiction.
  - cbn [bind_keywords].
    destruct (pystr_eqb k' self_name) eqn:Es; [eexists; reflexivity |].
    cbn [keys map fst In] in Hin.
    destruct (existsb (pystr_eqb k') params) eqn:Ep.
    + destruct (has_key k' bound) eqn:Eb; [eexists; reflexivity |].
      apply IH.
      * destruct Hin as [-> | Hin]; [| exact Hin].
        exfalso. destruct Hk as [-> | [_ Hb]].
        -- rewrite pystr_eqb_refl in Es. discriminate.
        -- apply has_key_In in Hb. congruence.
      * destruct Hk as [Hk | [Hp Hb]]; [left; exact Hk | right].
        split; [exact Hp |]. apply keys_dict_set. right. exact Hb.
    + apply IH; [| exact Hk].
      destruct Hin as [-> | Hin]; [| exact Hin].
      exfalso. destruct Hk as [-> | [Hp _]].
      * rewrite pystr_eqb_refl in Es. discriminate.
      * apply existsb_pystr_In in Hp. congruence.
Qed.

(** [bind_keywords] raises nothing but [TypeError], and binds no
    parameter that the keywords do not name. *)
Lemma bind_keywords_unnamed (params : list pystr) (kw bound kwargs : dict) (p : pystr) :
  ~ In p (keys kw) -> ~ In p (keys bound) ->
  (exists why, bind_keywords params kw bound kwargs = Raise (TypeError why))
  \/ (exists bound' kwargs',
        bind_keywords params kw bound kwargs = Ok (bound', kwargs')
        /\ ~ In p (keys bound')).
Proof.
  revert bound kwargs. induction kw as [| [k v] kw IH]; intros bound kwargs Hkw Hb.
  - right. exists bound, kwargs. split; [reflexivity | exact Hb].
  - cbn [bind_keywords]. cbn [keys map fst In] in Hkw.
    destruct (pystr_eqb k self_name); [left; eexists; reflexivity |].
    destruct (existsb (pystr_eqb k) params).
    + destruct (has_key k bound); [left; eexists; reflexivity |].
      apply IH; [tauto |]. rewrite keys_dict_set. intros [-> | H]; tauto.
    + apply IH; [tauto | exact Hb].
Qed.

(** The base constructor, when no keyword collides. *)
Lemma BaseCommand__init__ok (self : command) (flag : value) (kw : dict) :
  has_key (str "flag") kw = false -> has_key (str "self") kw = false ->
  distinct (keys kw) = true ->
  BaseCommand__init__ self [flag] kw
  = Ok (setattr (setattr self "flag" flag) "args" (VDict kw)).
Proof.
  intros Hf Hs Hd. unfold BaseCommand__init__, bind_call.
  cbn [bind_positional bind_result].
  rewrite (bind_keywords_kwargs [str "flag"] kw [(str "flag", flag)] []).
  - reflexivity.
  - intros k Hk. split.
    + intros ->. apply has_key_not_In in Hs. exact (Hs Hk).
    + intros [<- | []]. apply has_key_not_In in Hf. exact (Hf Hk).
  - apply distinct_NoDup. exact Hd.
Qed.

(** ** Commands: construction, serialisation, deserialisation *)

(** The attributes of a command built by the base constructor. *)
Lemma new_base (cls : cmd_class) (flag : value) (kw : dict) :
  is_server_side cls = false ->
  has_key (str "flag") kw = false -> has_key (str "self") kw = false ->
  distinct (keys kw) = true ->
  new cls [flag] kw = Ok (mkCommand cls [(str "flag", flag); (str "args", VDict kw)]).
Proof.
  intros Hcls Hf Hs Hd.
  destruct cls; try discriminate; cbn [new];
    rewrite BaseCommand__init__ok by assumption; reflexivity.
Qed.




(** A split surrogate pair does not survive the round trip: the decoder
    joins the two escapes into one character. *)
Example round_trip_split_surrogates :
  round_trip ClientCommand (VInt 7) [(str "k", VStr [55296; 56320]%N)]
  = Ok (mkCommand ClientCommand
          [(str "flag", VInt 7); (str "args", VDict [(str "k", VStr [65536%N])])]).
Proof. vm_compute. reflexivity. Qed.

(** ** The decoder raises nothing but [JSONDecodeError] *)














Lemma new_base_collision (cls : cmd_class) (flag : value) (kw : dict) :
  is_server_side cls = false ->
  has_key (str "flag") kw = true \/ has_key (str "self") kw = true ->
  exists name, new cls [flag] kw = Raise (TypeError (MultipleValues name)).
Proof.
  intros Hcls Hk.
  assert (Hb : exists name,
             bind_keywords [str "flag"] kw [(str "flag", flag)] []
             = Raise (TypeError (MultipleValues name))).
  { destruct Hk as [Hk | Hk]; apply has_key_In in Hk.
    - apply bind_keywords_collision with (k := str "flag"); [exact Hk |].
      right. split; left; reflexivity.
    - apply bind_keywords_collision with (k := str "self"); [exact Hk |].
      left. reflexivity. }
  destruct Hb as (name & Hb). exists name.
  destruct cls; try discriminate; cbn [new];
    unfold BaseCommand__init__, bind_call; cbn [bind_positional bind_result];
    rewrite Hb; reflexivity.
Qed.

Lemma new_server_side_collision (cls : cmd_class) (flag client : value) (kw : dict) :
  is_server_side cls = true ->
  has_key (str "flag") kw = true \/ has_key (str "self") kw = true
  \/ has_key (str "client") kw = true ->
  exists name, new cls [flag; client] kw = Raise (TypeError (MultipleValues name)).
Proof.
  intros Hcls Hk.
  assert (Hb : exists name,
             bind_keywords [str "flag"; str "client"] kw
               [(str "flag", flag); (str "client", client)] []
             = Raise (TypeError (MultipleValues name))).
  { destruct Hk as [Hk | [Hk | Hk]]; apply has_key_In in Hk.
    - apply bind_keywords_collision with (k := str "flag"); [exact Hk |].
      right. split; left; reflexivity.
    - apply bind_keywords_collision with (k := str "self"); [exact Hk |].
      left. reflexivity.
    - apply bind_keywords_collision with (k := str "client"); [exact Hk |].
      right. split; right; left; reflexivity. }
  destruct Hb as (name & Hb). exists name.
  destruct cls; try discriminate; cbn [new];
    cbv delta [ServerSideClientCommand__init__ ServerSideServerCommand__init__] beta;
    unfold bind_call; cbn [bind_positional bind_result];
    rewrite Hb; reflexivity.
Qed.

(** The server-side constructor, when no keyword collides. *)
Lemma new_server_side (cls : cmd_class) (flag client : value) (kw : dict) :
  is_server_side cls = true ->
  has_key (str "flag") kw = false -> has_key (str "self") kw = false ->
  has_key (str "client") kw = false ->
  distinct (keys kw) = true ->
  new cls [flag; client] kw
  = Ok (mkCommand cls [(str "flag", flag); (str "args", VDict kw); (str "client", client)]).
Proof.
  intros Hcls Hf Hs Hc Hd.
  assert (Hb : bind_keywords [str "flag"; str "client"] kw
                 [(str "flag", flag); (str "client", client)] []
               = Ok ([(str "flag", flag); (str "client", client)], kw)).
  { apply (bind_keywords_kwargs [str "flag"; str "client"] kw _ []).
    - intros k Hk. split.
      + intros ->. apply has_key_not_In in Hs. exact (Hs Hk).
      + intros [<- | [<- | []]].
        * apply has_key_not_In in Hf. exact (Hf Hk).
        * apply has_key_not_In in Hc. exact (Hc Hk).
    - apply distinct_NoDup. exact Hd. }
  destruct cls; try discriminate; cbn [new];
    cbv delta [ServerSideClientCommand__init__ ServerSideServerCommand__init__] beta;
    unfold bind_call; cbn [bind_positional bind_result];
    rewrite Hb; cbn [bind_result];
    change (filter (fun p => negb (has_key p [(str "flag", flag); (str "client", client)]))
              [str "flag"; str "client"]) with (@nil pystr);
    cbn [bind_result];
    change (arg "flag" [(str "flag", flag); (str "client", client)]) with (Ok flag);
    change (arg "client" [(str "flag", flag); (str "client", client)]) with (Ok client);
    cbn [bind_result]; rewrite BaseCommand__init__ok by assumption; reflexivity.
Qed.

(** A constructor that returns had no colliding keyword. *)
Lemma new_base_inv (cls : cmd_class) (flag : value) (kw : dict) (cmd : command) :
  is_server_side cls = false -> new cls [flag] kw = Ok cmd ->
  has_key (str "flag") kw = false /\ has_key (str "self") kw = false.
Proof.
  intros Hcls Hnew.
  split.
  - destruct (has_key (str "flag") kw) eqn:E; [| reflexivity].
    destruct (new_base_collision cls flag kw Hcls (or_introl E)) as (n & Hn). congruence.
  - destruct (has_key (str "self") kw) eqn:E; [| reflexivity].
    destruct (new_base_collision cls flag kw Hcls (or_intror E)) as (n & Hn). congruence.
Qed.

Lemma new_server_side_inv (cls : cmd_class) (flag client : value) (kw : dict)
    (cmd : command) :
  is_server_side cls = true -> new cls [flag; client] kw = Ok cmd ->
  has_key (str "flag") kw = false /\ has_key (str "self") kw = false
  /\ has_key (str "client") kw = false.
Proof.
  intros Hcls Hnew.
  repeat split.
  - destruct (has_key (str "flag") kw) eqn:E; [| reflexivity].
    destruct (new_server_side_collision cls flag client kw Hcls (or_introl E))
      as (n & Hn). congruence.
  - destruct (has_key (str "self") kw) eqn:E; [| reflexivity].
    destruct (new_server_side_collision cls flag client kw Hcls (or_intror (or_introl E)))
      as (n & Hn). congruence.
  - destruct (has_key (str "client") kw) eqn:E; [| reflexivity].
    destruct (new_server_side_collision cls flag client kw Hcls (or_intror (or_intror E)))
      as (n & Hn). congruence.
Qed.




(** C6 (as amended).  For every command built by a base constructor
    whose args have no ["client"] key, and for every peer,
    [FromClientCommand(cmd, peer)] produces a [ServerSideClientCommand]
    with the flag of [cmd], the args of [cmd], and the very peer passed
    in as its [client]. *)
Theorem C6_from_client_cmd (cls : cmd_class) (flag : value) (args : dict)
    (cmd : command) (peer : ClientBase) :
  is_server_side cls = false ->
  distinct (keys args) = true ->
  new cls [flag] args = Ok cmd ->
  has_key (str "client") args = false ->
  exists c,
    from_client_cmd cmd (VClient peer) = Ok c /\
    class_of c = ServerSideClientCommand /\
    getattr c "flag" = Ok flag /\
    getattr c "args" = Ok (VDict args) /\
    getattr c "client" = Ok (VClient peer).
Proof.
  intros Hcls Hd Hnew Hc.
  destruct (new_base_inv cls flag args cmd Hcls Hnew) as [Hf Hs].
  rewrite (new_base cls flag args Hcls Hf Hs Hd) in Hnew. injection Hnew as <-.
  eexists. split.
  - unfold from_client_cmd.
    change (getattr (mkCommand cls [(str "flag", flag); (str "args", VDict args)]) "flag")
      with (Ok flag).
    change (getattr (mkCommand cls [(str "flag", flag); (str "args", VDict args)]) "args")
      with (Ok (VDict args)).
    cbn [bind_result unpack_mapping].
    apply new_server_side; (assumption || reflexivity).
  - repeat split.
Qed.

Lemma C6_from_client_cmd_witness :
  exists c,
    from_client_cmd
      (mkCommand ClientCommand [(str "flag", VInt 7); (str "args", VDict [(str "x", VInt 1)])])
      (VClient (mkClient 1 (str "10.0.0.2", 50000%Z))) = Ok c /\
    class_of c = ServerSideClientCommand /\
    getattr c "flag" = Ok (VInt 7) /\
    getattr c "args" = Ok (VDict [(str "x", VInt 1)]) /\
    getattr c "client" = Ok (VClient (mkClient 1 (str "10.0.0.2", 50000%Z))).
Proof.
  apply (C6_from_client_cmd ClientCommand (VInt 7) [(str "x", VInt 1)]);
    reflexivity.
Defined.

(** C6 as stated fails: a [ClientCommand] may carry an argument named
    ["client"], and lifting it raises. *)
Lemma C6_counterexample :
  new ClientCommand [VInt 7] [(str "client", VInt 1)]
  = Ok (mkCommand ClientCommand
          [(str "flag", VInt 7); (str "args", VDict [(str "client", VInt 1)])])
  /\ from_client_cmd
       (mkCommand ClientCommand
          [(str "flag", VInt 7); (str "args", VDict [(str "client", VInt 1)])])
       (VClient (mkClient 1 (str "10.0.0.2", 50000%Z)))
     = Raise (TypeError (MultipleValues (str "client"))).
Proof. split; vm_compute; reflexivity. Qed.

(** C7.  For every [ServerSideServerCommand] built with flag [f], peer
    [p] and args [a], [ToClientCommand()] produces a [ServerCommand]
    with flag [f] and args [a] and no [client] attribute: its attribute
    dictionary, which is what [serialize] encodes, has the keys ["flag"]
    and ["args"] only. *)
Theorem C7_to_client_cmd (f : value) (p : ClientBase) (a : dict) (cmd : command) :
  distinct (keys a) = true ->
  new ServerSideServerCommand [f; VClient p] a = Ok cmd ->
  exists sc,
    to_client_cmd cmd = Ok sc /\
    class_of sc = ServerCommand /\
    getattr sc "flag" = Ok f /\
    getattr sc "args" = Ok (VDict a) /\
    getattr sc "client" = Raise (AttributeError (str "client")) /\
    keys (__dict__ sc) = [str "flag"; str "args"] /\
    serialize sc = dumps (VDict [(str "flag", f); (str "args", VDict a)]).
Proof.
  intros Hd Hnew.
  destruct (new_server_side_inv ServerSideServerCommand f (VClient p) a cmd eq_refl Hnew)
    as (Hf & Hs & Hc).
  rewrite (new_server_side ServerSideServerCommand f (VClient p) a eq_refl Hf Hs Hc Hd)
    in Hnew.
  injection Hnew as <-.
  exists (mkCommand ServerCommand [(str "flag", f); (str "args", VDict a)]). split.
  - unfold to_client_cmd.
    change (getattr (mkCommand ServerSideServerCommand
                       [(str "flag", f); (str "args", VDict a); (str "client", VClient p)])
                    "flag") with (Ok f).
    change (getattr (mkCommand ServerSideServerCommand
                       [(str "flag", f); (str "args", VDict a); (str "client", VClient p)])
                    "args") with (Ok (VDict a)).
    cbn [bind_result unpack_mapping].
    apply new_base; (assumption || reflexivity).
  - repeat split.
Qed.

Lemma C7_to_client_cmd_witness :
  exists sc,
    to_client_cmd
      (mkCommand ServerSideServerCommand
         [(str "flag", VInt 3); (str "args", VDict [(str "y", VInt 2)]);
          (str "client", VClient (mkClient 1 (str "10.0.0.2", 50000%Z)))]) = Ok sc /\
    class_of sc = ServerCommand /\
    getattr sc "flag" = Ok (VInt 3) /\
    getattr sc "args" = Ok (VDict [(str "y", VInt 2)]) /\
    getattr sc "client" = Raise (AttributeError (str "client")) /\
    keys (__dict__ sc) = [str "flag"; str "args"] /\
    serialize sc = dumps (VDict [(str "flag", VInt 3); (str "args", VDict [(str "y", VInt 2)])]).
Proof.
  apply (C7_to_client_cmd (VInt 3) (mkClient 1 (str "10.0.0.2", 50000%Z))
           [(str "y", VInt 2)]); reflexivity.
Defined.

(** The server-side constructor called without a [client], as
    [deserialize] calls it, raises [TypeError] unless the keywords
    supply one. *)
Lemma new_server_side_without_client (cls : cmd_class) (flag : value) (kw : dict) :
  is_server_side cls = true -> has_key (str "client") kw = false ->
  exists why, new cls [flag] kw = Raise (TypeError why).
Proof.
  intros Hcls Hc. apply has_key_not_In in Hc.
  assert (Hb0 : ~ In (str "client") (keys [(str "flag", flag)])).
  { cbn. intros [H | []]. discriminate H. }
  destruct cls; try discriminate; cbn [new];
    cbv delta [ServerSideClientCommand__init__ ServerSideServerCommand__init__] beta.
  all: unfold bind_call; cbn [bind_positional bind_result].
  all: destruct (bind_keywords_unnamed [str "flag"; str "client"] kw
                   [(str "flag", flag)] [] (str "client") Hc Hb0)
         as [(why & ->) | (bound & kwargs & -> & Hb)].
  all: try (exists why; reflexivity).
  all: cbn [bind_result filter]; apply has_key_not_In in Hb; rewrite Hb; cbn [negb].
  all: destruct (negb (has_key (str "flag") bound)); eexists; reflexivity.
Qed.

(** C9.  On a server-side variant, the inherited [Deserialize(text)]
    raises [TypeError] for every text whose parsed args mapping has no
    ["client"] key, since the constructor is called without its [client]
    argument; it can only return when the args on the wire carry a
    ["client"] entry. *)
Theorem C9_server_side_deserialize (cls : cmd_class) (text : pystr) :
  is_server_side cls = true ->
  (forall d a,
     loads text = Ok (VDict d) ->
     match dict_get (str "args") d with Some v => v | None => VDict [] end = VDict a ->
     has_key (str "client") a = false ->
     exists why, deserialize cls text = Raise (TypeError why))
  /\ (forall cmd,
        deserialize cls text = Ok cmd ->
        exists d a,
          loads text = Ok (VDict d) /\ dict_get (str "args") d = Some (VDict a)
          /\ has_key (str "client") a = true).
Proof.
  intros Hcls.
  assert (H1 : forall d a,
             loads text = Ok (VDict d) ->
             match dict_get (str "args") d with Some v => v | None => VDict [] end = VDict a ->
             has_key (str "client") a = false ->
             exists why, deserialize cls text = Raise (TypeError why)).
  { intros d a Hl Ha Hc. unfold deserialize, method_get.
    rewrite Hl. cbn [bind_result]. rewrite Ha. cbn [bind_result unpack_mapping].
    apply new_server_side_without_client; assumption. }
  split; [exact H1 |].
  intros cmd Hd.
  destruct (loads text) as [data | e] eqn:Hl;
    [| unfold deserialize in Hd; rewrite Hl in Hd; discriminate].
  destruct data as [| | | | | | d |];
    try (unfold deserialize in Hd; rewrite Hl in Hd; discriminate).
  destruct (dict_get (str "args") d) as [v |] eqn:Ha.
  - destruct v as [| | | | | | a |];
      try (unfold deserialize, method_get in Hd; rewrite Hl in Hd;
           cbn [bind_result] in Hd; rewrite Ha in Hd; discriminate).
    exists d, a. split; [reflexivity |]. split; [exact Ha |].
    destruct (has_key (str "client") a) eqn:Hc; [reflexivity |].
    destruct (H1 d a eq_refl) as (why & Hw); [rewrite Ha; reflexivity | exact Hc |].
    congruence.
  - destruct (H1 d [] eq_refl) as (why & Hw); [rewrite Ha; reflexivity | reflexivity |].
    congruence.
Qed.

Lemma C9_server_side_deserialize_witness :
  (exists why,
     deserialize ServerSideClientCommand (json_text "{'flag': 1, 'args': {'msg': 'hello'}}")
     = Raise (TypeError why))
  /\ (exists d a,
        loads (json_text "{'flag': 3, 'args': {'client': 4}}") = Ok (VDict d)
        /\ dict_get (str "args") d = Some (VDict a)
        /\ has_key (str "client") a = true).
Proof.
  split.
  - apply (proj1 (C9_server_side_deserialize ServerSideClientCommand
                    (json_text "{'flag': 1, 'args': {'msg': 'hello'}}") eq_refl)
             [(str "flag", VInt 1); (str "args", VDict [(str "msg", VStr (str "hello"))])]
             [(str "msg", VStr (str "hello"))]); vm_compute; reflexivity.
  - apply (proj2 (C9_server_side_deserialize ServerSideClientCommand
                    (json_text "{'flag': 3, 'args': {'client': 4}}") eq_refl)
             (mkCommand ServerSideClientCommand
                [(str "flag", VInt 3); (str "args", VDict []); (str "client", VInt 4)])).
    vm_compute. reflexivity.
Defined.

(** C10.  Args with the key ["flag"], and on a server-side variant args
    with the key ["client"], make the constructor fail with "got
    multiple values for argument" instead of producing a command; so does
    [FromClientCommand] on a command whose args have one of these
    keys. *)
Theorem C10_keyword_collisions :
  (forall cls flag args,
     is_server_side cls = false -> has_key (str "flag") args = true ->
     exists name, new cls [flag] args = Raise (TypeError (MultipleValues name)))
  /\ (forall cls flag client args,
        is_server_side cls = true ->
        has_key (str "flag") args = true \/ has_key (str "client") args = true ->
        exists name, new cls [flag; client] args = Raise (TypeError (MultipleValues name)))
  /\ (forall cmd flag args client,
        getattr cmd "flag" = Ok flag -> getattr cmd "args" = Ok (VDict args) ->
        has_key (str "flag") args = true \/ has_key (str "client") args = true ->
        exists name, from_client_cmd cmd client = Raise (TypeError (MultipleValues name))).
Proof.
  split; [| split].
  - intros cls flag args Hcls Hk. apply new_base_collision; [exact Hcls | left; exact Hk].
  - intros cls flag client args Hcls Hk.
    apply new_server_side_collision; [exact Hcls | tauto].
  - intros cmd flag args client Hf Ha Hk. unfold from_client_cmd.
    rewrite Hf, Ha. cbn [bind_result unpack_mapping].
    apply new_server_side_collision; [reflexivity | tauto].
Qed.

Lemma C10_keyword_collisions_witness :
  (exists name, new ClientCommand [VInt 5] [(str "flag", VInt 1)]
                = Raise (TypeError (MultipleValues name)))
  /\ (exists name,
        new ServerSideServerCommand [VInt 5; VClient (mkClient 1 (str "10.0.0.2", 50000%Z))]
          [(str "client", VInt 1)]
        = Raise (TypeError (MultipleValues name)))
  /\ (exists name,
        from_client_cmd
          (mkCommand ClientCommand
             [(str "flag", VInt 7); (str "args", VDict [(str "client", VInt 1)])])
          (VClient (mkClient 1 (str "10.0.0.2", 50000%Z)))
        = Raise (TypeError (MultipleValues name))).
Proof.
  destruct C10_keyword_collisions as (H1 & H2 & H3).
  split; [| split].
  - apply H1; reflexivity.
  - apply H2; [reflexivity | right; reflexivity].
  - apply (H3 _ (VInt 7) [(str "client", VInt 1)]); [reflexivity | reflexivity |].
    right. reflexivity.
Defined.

(** ** The transport *)

(** What the loop of [_accept] does: it takes from the queue as many
    connections as the roster lacks to reach [amount], and waits when the
    queue has fewer. *)
Lemma accept_loop_spec (amount : Z) (queue : list (nat * address))
    (roster : list ClientBase) :
  accept_loop amount roster queue
  = let need := Z.to_nat (amount - Z.of_nat (List.length roster)) in
    if need <=? List.length queue
    then (roster ++ map from_accept (firstn need queue), skipn need queue, false)
    else (roster ++ map from_accept queue, [], true).
Proof.
  revert roster. induction queue as [| c q IH]; intros roster; cbn [accept_loop].
  - destruct (Z.ltb_spec (Z.of_nat (List.length roster)) amount) as [Hlt | Hge].
    + cbv zeta.
      replace (Z.to_nat (amount - Z.of_nat (List.length roster)) <=? List.length (@nil (nat * address)))
        with false by (symmetry; apply Nat.leb_gt; cbn; lia).
      cbn [map]. rewrite List.app_nil_r. reflexivity.
    + cbv zeta.
      replace (Z.to_nat (amount - Z.of_nat (List.length roster))) with 0 by lia.
      cbn. rewrite List.app_nil_r. reflexivity.
  - destruct (Z.ltb_spec (Z.of_nat (List.length roster)) amount) as [Hlt | Hge].
    + rewrite IH. cbv zeta. rewrite List.length_app. cbn [List.length].
      replace (Z.to_nat (amount - Z.of_nat (List.length roster)))
        with (S (Z.to_nat (amount - Z.of_nat (List.length roster + 1)))) by lia.
      cbn [Nat.leb firstn skipn map].
      destruct (Z.to_nat (amount - Z.of_nat (List.length roster + 1)) <=? List.length q);
        rewrite <- List.app_assoc; reflexivity.
    + cbv zeta.
      replace (Z.to_nat (amount - Z.of_nat (List.length roster))) with 0 by lia.
      cbn. rewrite List.app_nil_r. reflexivity.
Qed.



(** C4.  On a transport that is not bound, [Accept], [Receive] and [Send]
    raise the "not bound" connection error whatever their arguments, and
    leave the transport and the network as they were. *)
Theorem C4_not_bound (self : NetworkServerBase) (net : network) :
  is_binded self = false ->
  (forall amount, _accept self amount net = Raises not_binded self net)
  /\ (forall size client, _recv self size client net = Raises not_binded self net)
  /\ (forall data client, _send self data client net = Raises not_binded self net).
Proof.
  intros Hb. unfold _accept, _recv, _send. rewrite Hb. repeat split.
Qed.

Lemma C4_not_bound_witness :
  let self := mkServer (mkSocket None None) false None [] in
  (forall amount, _accept self amount sample_network = Raises not_binded self sample_network)
  /\ (forall size client,
        _recv self size client sample_network = Raises not_binded self sample_network)
  /\ (forall data client,
        _send self data client sample_network = Raises not_binded self sample_network).
Proof.
  exact (C4_not_bound (mkServer (mkSocket None None) false None []) sample_network eq_refl).
Defined.

(** C5.  On a bound transport, [Receive] and [Send] for a peer handle
    that is not in the roster raise the "peer not recognized" connection
    error, whatever other peers the roster holds, and leave the transport
    and the network as they were; that error differs from the "not
    bound" one. *)
Theorem C5_unknown_peer (self : NetworkServerBase) (client : ClientBase) (net : network) :
  is_binded self = true ->
  ~ In client (clients self) ->
  (forall size, _recv self size client net = Raises not_connected self net)
  /\ (forall data, _send self data client net = Raises not_connected self net)
  /\ not_connected <> not_binded.
Proof.
  intros Hb Hin. unfold _recv, _send, not_in_roster. rewrite Hb. cbn [negb].
  destruct (in_dec ClientBase_eq_dec client (clients self)) as [H | _]; [contradiction |].
  repeat split. discriminate.
Qed.

Lemma C5_unknown_peer_witness :
  let stranger := mkClient 9 (str "10.0.0.9", 40009%Z) in
  (forall size,
     _recv sample_server size stranger sample_network
     = Raises not_connected sample_server sample_network)
  /\ (forall data,
        _send sample_server data stranger sample_network
        = Raises not_connected sample_server sample_network)
  /\ not_connected <> not_binded.
Proof.
  apply (C5_unknown_peer sample_server (mkClient 9 (str "10.0.0.9", 40009%Z))
           sample_network eq_refl).
  cbn. intros [H | [H | []]]; discriminate H.
Defined.

(** The constructor without auto-binding, or without a host or a port:
    an unbound transport with an empty roster. *)
Lemma init_unbound (host : option pystr) (port : option Z) (auto_bind : bool)
    (net : network) :
  auto_bind = false \/ host = None \/ port = None ->
  exists self,
    NetworkServerBase__init__ host port auto_bind net = Returns tt self net
    /\ is_binded self = false /\ clients self = [] /\ addr self = None.
Proof.
  intros H. unfold NetworkServerBase__init__.
  destruct H as [-> | [-> | ->]]; [| destruct auto_bind | destruct auto_bind, host];
    eexists; split; try reflexivity; repeat split.
Qed.

(** The constructor with auto-binding, a non-empty host and a non-zero
    port that is free: the transport is bound to that address. *)
Lemma init_auto_bind (host : pystr) (port : Z) (net : network) :
  truthy_str host = true -> truthy_int port = true ->
  existsb (address_eqb (host, port)) (in_use net) = false ->
  exists self,
    NetworkServerBase__init__ (Some host) (Some port) true net = Returns tt self net
    /\ is_binded self = true /\ addr self = Some (host, port) /\ clients self = [].
Proof.
  intros Hh Hp Hfree. unfold NetworkServerBase__init__, bind, sock_bind.
  rewrite Hh, Hp. cbn [andb server_conn sock_name]. rewrite Hfree.
  eexists. split; [reflexivity |]. repeat split.
Qed.

(** C8, at the inputs where the code departs from it: with an empty host
    (every interface) or with port 0 (any free port), both given and with
    [auto_bind] true, the constructor leaves the transport unbound. *)
Theorem C8_auto_bind_skipped (net : network) :
  NetworkServerBase__init__ (Some []) (Some 5000%Z) true net
  = Returns tt (mkServer (mkSocket None None) false None []) net
  /\ NetworkServerBase__init__ (Some (str "localhost")) (Some 0%Z) true net
     = Returns tt (mkServer (mkSocket None None) false None []) net
  /\ is_binded (mkServer (mkSocket None None) false None []) = false.
Proof. repeat split. Qed.

(** ** Further properties of the decoder and of dicts *)

Lemma dict_set_NoDup (k : pystr) (v : value) (d : dict) :
  NoDup (keys d) -> NoDup (keys (dict_set k v d)).
Proof.
  unfold keys. induction d as [| [k' v'] r IH]; intros Hnd; cbn [dict_set map fst].
  - constructor; [intros [] | constructor].
  - inversion Hnd as [| ? ? Hnin Hr]; subst.
    destruct (pystr_eqb k k') eqn:E; cbn [map fst].
    + apply pystr_eqb_eq in E. subst. constructor; assumption.
    + apply pystr_eqb_neq in E. constructor; [| apply IH; exact Hr].
      intros Hin. apply (keys_dict_set k v r k') in Hin.
      destruct Hin as [-> | Hin]; [congruence | exact (Hnin Hin)].
Qed.

Lemma dict_set_values (P : value -> Prop) (k : pystr) (v : value) (d : dict) :
  P v -> Forall (fun kv => P (snd kv)) d ->
  Forall (fun kv => P (snd kv)) (dict_set k v d).
Proof.
  intros Hv. induction d as [| [k' v'] r IH]; intros Hd; cbn [dict_set].
  - constructor; [exact Hv | constructor].
  - inversion Hd as [| ? ? Hx Hr]; subst.
    destruct (pystr_eqb k k'); constructor; auto.
Qed.

Lemma fold_dict_set_wf (P : value -> Prop) (l acc : dict) :
  Forall (fun kv => P (snd kv)) l ->
  Forall (fun kv => P (snd kv)) acc -> NoDup (keys acc) ->
  let d := fold_left (fun a kv => dict_set (fst kv) (snd kv) a) l acc in
  Forall (fun kv => P (snd kv)) d /\ NoDup (keys d).
Proof.
  revert acc. induction l as [| [k v] r IH]; intros acc Hl Hacc Hnd; cbn [fold_left].
  - split; assumption.
  - inversion Hl as [| ? ? Hv Hr]; subst. cbn [fst snd] in *.
    apply IH; [exact Hr | apply dict_set_values; assumption | apply dict_set_NoDup; exact Hnd].
Qed.

Lemma distinct_keys_dict (d : dict) :
  Forall (fun kv => distinct_keys (snd kv) = true) d -> NoDup (keys d) ->
  distinct_keys (VDict d) = true.
Proof.
  intros Hv Hnd. cbn [distinct_keys]. apply andb_true_iff. split.
  - apply forallb_forall. intros [k x] Hin.
    rewrite Forall_forall in Hv. exact (Hv _ Hin).
  - apply distinct_NoDup. exact Hnd.
Qed.

Lemma forallb_snoc {A : Type} (f : A -> bool) (l : list A) (x : A) :
  forallb f l = true -> f x = true -> forallb f (l ++ [x]) = true.
Proof.
  intros Hl Hx. rewrite forallb_app, Hl. cbn. rewrite Hx. reflexivity.
Qed.

Lemma scan_atom_distinct_keys (s r : pystr) (v : value) :
  scan_atom s = Ok (v, r) -> distinct_keys v = true.
Proof.
  unfold scan_atom. intros H.
  repeat match type of H with
  | match ?x with _ => _ end = _ => destruct x
  | (let (_, _) := ?x in _) = _ => destruct x
  end; try discriminate; injection H as <- _; reflexivity.
Qed.

(** Every dict that the decoder builds has distinct keys. *)
Lemma scan_distinct_keys (fuel : nat) :
  (forall s v r, scan_once fuel s = Ok (v, r) -> distinct_keys v = true)
  /\ (forall values s v r,
        forallb distinct_keys values = true ->
        JSONArray_loop fuel values s = Ok (v, r) -> distinct_keys v = true)
  /\ (forall pairs s v r,
        Forall (fun kv => distinct_keys (snd kv) = true) pairs ->
        JSONObject_loop fuel pairs s = Ok (v, r) -> distinct_keys v = true).
Proof.
  induction fuel as [| fuel (IHs & IHa & IHo)].
  - repeat split; intros; discriminate.
  - split; [| split].
    + intros s v r H. cbn [scan_once] in H.
      destruct s as [| c s1]; [discriminate |].
      destruct (N.eqb c 34).
      { destruct (scanstring s1) as [[t r'] |]; [| discriminate].
        injection H as <- _. reflexivity. }
      destruct (N.eqb c 123).
      { destruct (skip_ws s1) as [| c' r']; [discriminate |].
        destruct (N.eqb c' 125); [injection H as <- _; reflexivity |].
        destruct (N.eqb c' 34); [| discriminate].
        exact (IHo [] r' v r (Forall_nil _) H). }
      destruct (N.eqb c 91).
      { destruct (skip_ws s1) as [| c' r']; [discriminate |].
        destruct (N.eqb c' 93); [injection H as <- _; reflexivity |].
        exact (IHa [] (c' :: r') v r eq_refl H). }
      exact (scan_atom_distinct_keys _ _ _ H).
    + intros values s v r Hvs H. cbn [JSONArray_loop] in H.
      destruct (scan_once fuel s) as [[x r0] |] eqn:Ex; [| discriminate].
      cbn [bind_result] in H. apply IHs in Ex.
      destruct (skip_ws r0) as [| c r1]; [discriminate |].
      destruct (N.eqb c 93).
      { injection H as <- _. cbn [distinct_keys]. apply forallb_snoc; assumption. }
      destruct (N.eqb c 44); [| discriminate].
      apply (IHa (values ++ [x]) (skip_ws r1) v r); [apply forallb_snoc; assumption | exact H].
    + intros pairs s v r Hps H. cbn [JSONObject_loop] in H.
      destruct (scanstring s) as [[key r0] |]; [| discriminate].
      cbn [bind_result] in H.
      destruct (skip_ws r0) as [| c r1]; [discriminate |].
      destruct (N.eqb c 58); [| discriminate].
      destruct (scan_once fuel (skip_ws r1)) as [[x r2] |] eqn:Ex; [| discriminate].
      cbn [bind_result] in H. apply IHs in Ex.
      assert (Hps' : Forall (fun kv => distinct_keys (snd kv) = true) (pairs ++ [(key, x)])).
      { apply Forall_app. split; [exact Hps | constructor; [exact Ex | constructor]]. }
      destruct (skip_ws r2) as [| c' r3]; [discriminate |].
      destruct (N.eqb c' 125).
      { injection H as <- _. unfold dict_of_pairs.
        destruct (fold_dict_set_wf (fun x => distinct_keys x = true)
                    (pairs ++ [(key, x)]) [] Hps' (Forall_nil _) (NoDup_nil _))
          as [Hv Hnd].
        apply distinct_keys_dict; assumption. }
      destruct (N.eqb c' 44); [| discriminate].
      destruct (skip_ws r3) as [| q r4]; [discriminate |].
      destruct (N.eqb q 34); [| discriminate].
      exact (IHo _ _ _ _ Hps' H).
Qed.

Lemma loads_distinct_keys (text : pystr) (v : value) :
  loads text = Ok v -> distinct_keys v = true.
Proof.
  unfold loads, decode. destruct (starts_with_bom text); [discriminate |].
  destruct (scan_once (2 * List.length text + 1) (skip_ws text)) as [[obj r] |] eqn:E;
    [| discriminate].
  cbn [bind_result]. destruct (skip_ws r); [| discriminate].
  intros H. injection H as <-.
  exact (proj1 (scan_distinct_keys _) _ _ _ E).
Qed.

Lemma distinct_keys_entry (d : dict) (k : pystr) (x : value) :
  distinct_keys (VDict d) = true -> dict_get k d = Some x -> distinct_keys x = true.
Proof.
  cbn [distinct_keys]. intros H. apply andb_true_iff in H. destruct H as [H _].
  rewrite forallb_forall in H.
  induction d as [| [k' v'] r IH]; cbn [dict_get]; [discriminate |].
  destruct (pystr_eqb k k').
  - intros E. injection E as <-. exact (H (k', v') (or_introl eq_refl)).
  - apply IH. intros y Hy. apply H. right. exact Hy.
Qed.

(** ** What [serialize] can encode *)








(** ** The two directions of the protocol *)






(** ** Errors and results of [deserialize] *)

(** X5.  A valid JSON text that is not an object makes [deserialize]
    raise [AttributeError] (the value has no [get]); an object whose
    ["args"] entry is not an object makes it raise [TypeError] (the
    argument after [**] must be a mapping).  Neither is a decode
    error. *)
Theorem deserialize_not_an_object (cls : cmd_class) (text : pystr) :
  (forall v, loads text = Ok v ->
     match v with VDict _ => False | _ => True end ->
     deserialize cls text = Raise (AttributeError (str "get")))
  /\ (forall d x, loads text = Ok (VDict d) ->
        dict_get (str "args") d = Some x ->
        match x with VDict _ => False | _ => True end ->
        deserialize cls text = Raise (TypeError NotAMapping)).
Proof.
  split.
  - intros v Hl Hv. unfold deserialize. rewrite Hl. cbn [bind_result].
    destruct v; (contradiction || reflexivity).
  - intros d x Hl Ha Hx. unfold deserialize, method_get. rewrite Hl.
    cbn [bind_result]. rewrite Ha.
    destruct x; (contradiction || reflexivity).
Qed.

Lemma deserialize_not_an_object_witness :
  deserialize ClientCommand (json_text "[1, {'flag': 2}]") = Raise (AttributeError (str "get"))
  /\ deserialize ClientCommand (json_text "{'flag': 1, 'args': null}")
     = Raise (TypeError NotAMapping).
Proof.
  split.
  - apply (proj1 (deserialize_not_an_object ClientCommand (json_text "[1, {'flag': 2}]"))
             (VList [VInt 1; VDict [(str "flag", VInt 2)]])); [vm_compute; reflexivity | exact I].
  - apply (proj2 (deserialize_not_an_object ClientCommand
                    (json_text "{'flag': 1, 'args': null}"))
             [(str "flag", VInt 1); (str "args", VNone)] VNone);
      [vm_compute; reflexivity | vm_compute; reflexivity | exact I].
Defined.

(** X6.  Whatever the text, a command that [deserialize] returns for a
    base class has that class and exactly two attributes: the ["flag"]
    entry of the JSON object ([None] if absent) and its ["args"] entry
    (empty if absent), which has no ["flag"] and no ["self"] key.  Every
    other entry of the object is dropped, and no [client] attribute can
    come from the wire. *)
Theorem deserialize_base_result (cls : cmd_class) (text : pystr) (cmd : command) :
  is_server_side cls = false ->
  deserialize cls text = Ok cmd ->
  exists d a,
    loads text = Ok (VDict d) /\
    match dict_get (str "args") d with Some x => x | None => VDict [] end = VDict a /\
    cmd = mkCommand cls
            [(str "flag", match dict_get (str "flag") d with Some v => v | None => VNone end);
             (str "args", VDict a)] /\
    has_key (str "flag") a = false /\ has_key (str "self") a = false.
Proof.
  intros Hcls Hde. unfold deserialize, method_get in Hde.
  destruct (loads text) as [data |] eqn:Hl; [| discriminate].
  cbn [bind_result] in Hde.
  destruct data as [| | | | | | d |]; try discriminate.
  cbn [bind_result] in Hde.
  pose proof (loads_distinct_keys text _ Hl) as Hwf.
  set (x := match dict_get (str "args") d with Some x => x | None => VDict [] end) in *.
  assert (Hx : distinct_keys x = true).
  { unfold x. destruct (dict_get (str "args") d) as [y |] eqn:Ha; [| reflexivity].
    exact (distinct_keys_entry d _ y Hwf Ha). }
  destruct x as [| | | | | | a |] eqn:Ex; try discriminate.
  cbn [unpack_mapping bind_result] in Hde.
  assert (Hd : distinct (keys a) = true).
  { cbn [distinct_keys] in Hx. apply andb_true_iff in Hx. apply Hx. }
  destruct (new_base_inv cls _ a cmd Hcls Hde) as (Hf & Hs).
  rewrite (new_base cls _ a Hcls Hf Hs Hd) in Hde. injection Hde as <-.
  exists d, a. repeat split; assumption.
Qed.

Lemma deserialize_base_result_witness :
  exists d a,
    loads (json_text "{'client': 9, 'flag': 3, 'args': {'x': 1}, 'extra': [true]}")
    = Ok (VDict d) /\
    match dict_get (str "args") d with Some x => x | None => VDict [] end = VDict a /\
    mkCommand ClientCommand [(str "flag", VInt 3); (str "args", VDict [(str "x", VInt 1)])]
    = mkCommand ClientCommand
        [(str "flag", match dict_get (str "flag") d with Some v => v | None => VNone end);
         (str "args", VDict a)] /\
    has_key (str "flag") a = false /\ has_key (str "self") a = false.
Proof.
  apply (deserialize_base_result ClientCommand
           (json_text "{'client': 9, 'flag': 3, 'args': {'x': 1}, 'extra': [true]}"));
    [reflexivity | vm_compute; reflexivity].
Defined.







(** X8.  The constructors return exactly when no argument name collides
    with a parameter: ["flag"] and ["self"] for the base classes, and
    ["client"] as well for the server-side classes.  Every other name is
    accepted. *)
Theorem construct_returns_iff (flag client : value) (args : dict) :
  distinct (keys args) = true ->
  (forall cls, is_server_side cls = false ->
     ((exists cmd, new cls [flag] args = Ok cmd)
      <-> has_key (str "flag") args = false /\ has_key (str "self") args = false))
  /\ (forall cls, is_server_side cls = true ->
        ((exists cmd, new cls [flag; client] args = Ok cmd)
         <-> has_key (str "flag") args = false /\ has_key (str "self") args = false
             /\ has_key (str "client") args = false)).
Proof.
  intros Hd. split; intros cls Hcls; split.
  - intros (cmd & Hnew). exact (new_base_inv cls flag args cmd Hcls Hnew).
  - intros (Hf & Hs). eexists. exact (new_base cls flag args Hcls Hf Hs Hd).
  - intros (cmd & Hnew). exact (new_server_side_inv cls flag client args cmd Hcls Hnew).
  - intros (Hf & Hs & Hc). eexists.
    exact (new_server_side cls flag client args Hcls Hf Hs Hc Hd).
Qed.

Lemma construct_returns_iff_witness :
  (forall cls, is_server_side cls = false ->
     ((exists cmd, new cls [VInt 1] [(str "cls", VInt 2); (str "client", VInt 3)] = Ok cmd)
      <-> has_key (str "flag") [(str "cls", VInt 2); (str "client", VInt 3)] = false
          /\ has_key (str "self") [(str "cls", VInt 2); (str "client", VInt 3)] = false))
  /\ (forall cls, is_server_side cls = true ->
        ((exists cmd,
            new cls [VInt 1; VNone] [(str "cls", VInt 2); (str "client", VInt 3)] = Ok cmd)
         <-> has_key (str "flag") [(str "cls", VInt 2); (str "client", VInt 3)] = false
             /\ has_key (str "self") [(str "cls", VInt 2); (str "client", VInt 3)] = false
             /\ has_key (str "client") [(str "cls", VInt 2); (str "client", VInt 3)] = false)).
Proof.
  apply (construct_returns_iff (VInt 1) VNone [(str "cls", VInt 2); (str "client", VInt 3)]).
  reflexivity.
Defined.

(** ** The [__repr__] methods of the commands *)





(** ** Further properties of the transport *)





Lemma accept_loop_roster (amount : Z) (queue : list (nat * address))
    (roster : list ClientBase) :
  exists more, fst (fst (accept_loop amount roster queue)) = roster ++ more.
Proof.
  rewrite accept_loop_spec. cbv zeta.
  destruct (_ <=? _); eexists; reflexivity.
Qed.

Lemma accept_state (self : NetworkServerBase) (amount : Z) (net : network) :
  is_binded self = true ->
  exists more queue,
    left_by (_accept self amount net)
    = (mkServer (sock_listen (server_conn self) amount) (_binded self) (addr self)
                (clients self ++ more),
       mkNetwork (in_use net) queue (readable net) (written net)).
Proof.
  intros Hb. unfold _accept. rewrite Hb. cbn [negb].
  destruct (accept_loop_roster amount (incoming net) (clients self)) as (more & Hm).
  destruct (accept_loop amount (clients self) (incoming net)) as [[roster queue] waits].
  cbn [fst] in Hm. subst roster. exists more, queue.
  destruct waits; reflexivity.
Qed.

Lemma consistent_run (st : NetworkServerBase * network) (c : call) :
  consistent (fst st) -> consistent (fst (run st c)).
Proof.
  destruct st as [self net]. cbn [fst snd]. intros [H1 H2].
  destruct c as [host port | amount | size client | data client]; cbn [run fst snd].
  - unfold bind, sock_bind. cbn [server_conn].
    destruct (sock_name (server_conn self)) eqn:En.
    + cbn [left_by fst]. split; cbn [_binded server_conn addr];
        [rewrite En; exact H1 | discriminate].
    + destruct (existsb (address_eqb (host, port)) (in_use net)); cbn [left_by fst].
      * split; cbn [_binded server_conn addr]; [rewrite En; exact H1 | discriminate].
      * split; cbn [_binded server_conn addr sock_name]; [| discriminate].
        split; [discriminate | reflexivity].
  - destruct (is_binded self) eqn:Hb.
    + destruct (accept_state self amount net Hb) as (more & queue & ->).
      cbn [fst]. split; cbn [_binded server_conn addr sock_listen sock_name]; assumption.
    + unfold _accept. rewrite Hb. cbn [negb left_by fst]. split; assumption.
  - unfold _recv.
    destruct (negb (is_binded self)); [split; assumption |].
    destruct (not_in_roster client self); [split; assumption |].
    destruct (size <? 0)%Z; [split; assumption |].
    destruct (take_chunk _ _ _) as [[data r] |]; split; assumption.
  - unfold _send.
    destruct (negb (is_binded self)); [split; assumption |].
    destruct (not_in_roster client self); split; assumption.
Qed.

Lemma consistent_init (host : option pystr) (port : option Z) (auto_bind : bool)
    (net : network) :
  consistent (fst (left_by (NetworkServerBase__init__ host port auto_bind net))).
Proof.
  assert (H0 : consistent (mkServer (mkSocket None None) false None [])).
  { split; cbn; [split; [discriminate | congruence] | discriminate]. }
  unfold NetworkServerBase__init__.
  destruct auto_bind; [| exact H0].
  destruct host as [h |]; [| exact H0]. destruct port as [p |]; [| exact H0].
  destruct (truthy_str h && truthy_int p); [| exact H0].
  pose proof (consistent_run (mkServer (mkSocket None None) false None [], net)
                (Bind h p) H0) as H.
  cbn [run fst snd] in H.
  destruct (bind _ h p net); exact H.
Qed.

(** X13.  Whatever the arguments of the constructor and whatever calls
    follow, however they end, the transport is marked bound exactly when
    its socket has been bound, and a bound transport has an address. *)
Theorem history_consistent (host : option pystr) (port : option Z) (auto_bind : bool)
    (net : network) (calls : list call) :
  consistent (fst (history host port auto_bind net calls)).
Proof.
  unfold history.
  generalize (consistent_init host port auto_bind net).
  generalize (left_by (NetworkServerBase__init__ host port auto_bind net)).
  induction calls as [| c calls IH]; intros st Hst; cbn [fold_left].
  - exact Hst.
  - apply IH. apply consistent_run. exact Hst.
Qed.


Lemma run_grows (st : NetworkServerBase * network) (c : call) :
  (exists more,
     clients (fst (run st c)) = clients (fst st) ++ more
     /\ match c with Accept _ => True | _ => more = [] end)
  /\ (is_binded (fst st) = true -> is_binded (fst (run st c)) = true).
Proof.
  destruct st as [self net]. cbn [fst snd].
  destruct c as [host port | amount | size client | data client]; cbn [run fst snd].
  - unfold bind, sock_bind. cbn [server_conn].
    destruct (sock_name (server_conn self)); [| destruct (existsb _ _)];
      cbn [left_by fst clients]; (split; [exists []; rewrite List.app_nil_r; split; reflexivity |]);
      unfold is_binded; cbn [_binded]; auto.
  - destruct (is_binded self) eqn:Hb.
    + destruct (accept_state self amount net Hb) as (more & queue & ->).
      cbn [fst clients]. split; [exists more; split; [reflexivity | exact I] |].
      intros _. exact Hb.
    + unfold _accept. rewrite Hb. cbn [negb left_by fst].
      split; [exists []; rewrite List.app_nil_r; split; [reflexivity | exact I] | discriminate].
  - unfold _recv.
    assert (H : forall o : outcome bytes, fst (left_by o) = self ->
              (exists more, clients (fst (left_by o)) = clients self ++ more /\ more = [])
              /\ (is_binded self = true -> is_binded (fst (left_by o)) = true)).
    { intros o ->. split; [exists []; rewrite List.app_nil_r; split; reflexivity | auto]. }
    apply H.
    destruct (negb (is_binded self)); [reflexivity |].
    destruct (not_in_roster client self); [reflexivity |].
    destruct (size <? 0)%Z; [reflexivity |].
    destruct (take_chunk _ _ _) as [[data r] |]; reflexivity.
  - unfold _send.
    assert (H : forall o : outcome unit, fst (left_by o) = self ->
              (exists more, clients (fst (left_by o)) = clients self ++ more /\ more = [])
              /\ (is_binded self = true -> is_binded (fst (left_by o)) = true)).
    { intros o ->. split; [exists []; rewrite List.app_nil_r; split; reflexivity | auto]. }
    apply H.
    destruct (negb (is_binded self)); [reflexivity |].
    destruct (not_in_roster client self); reflexivity.
Qed.

(** X15.  No call ever removes or reorders a peer, and none unbinds the
    transport: after any calls, however they end, the roster is the
    former roster followed by the peers accepted since, it is the same
    roster when no call was [_accept], and a bound transport is still
    bound. *)
Theorem roster_only_grows (st : NetworkServerBase * network) (calls : list call) :
  (exists more,
     clients (fst (fold_left run calls st)) = clients (fst st) ++ more
     /\ (Forall (fun c => match c with Accept _ => False | _ => True end) calls ->
         more = []))
  /\ (is_binded (fst st) = true -> is_binded (fst (fold_left run calls st)) = true).
Proof.
  revert st. induction calls as [| c calls IH]; intros st; cbn [fold_left].
  - split; [exists []; rewrite List.app_nil_r; split; reflexivity | auto].
  - destruct (run_grows st c) as [(m1 & E1 & N1) B1].
    destruct (IH (run st c)) as [(m2 & E2 & N2) B2].
    split; [| auto].
    exists (m1 ++ m2). split.
    + rewrite E2, E1, List.app_assoc. reflexivity.
    + intros Hno. inversion Hno as [| ? ? Hc Hrest]; subst.
      rewrite (N2 Hrest), List.app_nil_r.
      destruct c; (contradiction || exact N1).
Qed.






Lemma roster_only_grows_witness :
  let calls := [Bind (str "h") 1; Send [] (mkClient 1 (str "10.0.0.1", 40001%Z));
                Recv 4 (mkClient 7 (str "x", 1%Z))] in
  (exists more,
     clients (fst (fold_left run calls (sample_server, sample_network)))
     = clients (fst (sample_server, sample_network)) ++ more
     /\ (Forall (fun c => match c with Accept _ => False | _ => True end) calls ->
         more = []))
  /\ (is_binded (fst (sample_server, sample_network)) = true ->
      is_binded (fst (fold_left run calls (sample_server, sample_network))) = true).
Proof.
  exact (roster_only_grows (sample_server, sample_network)
           [Bind (str "h") 1; Send [] (mkClient 1 (str "10.0.0.1", 40001%Z));
            Recv 4 (mkClient 7 (str "x", 1%Z))]).
Defined.



(** ** The exceptions of [deserialize] *)









(** ** The text on the wire *)

Lemma printable_app (a b : pystr) : printable a -> printable b -> printable (a ++ b).
Proof. intros Ha Hb. apply Forall_app. split; assumption. Qed.

Lemma printable_literal (s : string) :
  forallb (fun c => (32 <=? c) && (c <=? 126))%N (str s) = true -> printable (str s).
Proof.
  intros H. apply Forall_forall. intros c Hc.
  rewrite forallb_forall in H. specialize (H c Hc).
  apply andb_true_iff in H. destruct H as [H1 H2].
  apply N.leb_le in H1. apply N.leb_le in H2. lia.
Qed.

Ltac printable_parts :=
  repeat match goal with
  | |- printable [] => constructor
  | |- Forall _ [] => constructor
  | |- printable (_ :: _) => constructor; [lia |]
  | |- Forall _ (_ :: _) => constructor; [lia |]
  | |- printable (_ ++ _) => apply printable_app
  | |- Forall _ (_ ++ _) => apply printable_app
  | |- printable (str _) => apply printable_literal; reflexivity
  end.

Lemma hexdigit_printable (n : N) : (n < 16)%N -> (32 <= hexdigit n <= 126)%N.
Proof. intros H. unfold hexdigit. destruct (n <? 10)%N; lia. Qed.

Lemma hex4_printable (n : N) : printable (hex4 n).
Proof.
  unfold hex4. repeat constructor; apply hexdigit_printable; apply N.mod_lt; lia.
Qed.

Lemma escape_char_printable (c : N) : printable (escape_char c).
Proof.
  unfold escape_char.
  repeat match goal with
  | |- printable (if N.eqb c ?k then _ else _) =>
      destruct (N.eqb c k); [repeat constructor; lia |]
  end.
  destruct ((32 <=? c) && (c <=? 126))%N eqn:E.
  - apply andb_true_iff in E. destruct E as [E1 E2].
    apply N.leb_le in E1. apply N.leb_le in E2. repeat constructor; lia.
  - destruct (c <? 65536)%N.
    + constructor; [lia |]. constructor; [lia |]. apply hex4_printable.
    + cbv zeta. apply printable_app;
        (constructor; [lia |]; constructor; [lia |]; apply hex4_printable).
Qed.

Lemma escaped_printable (s : pystr) : printable (flat_map escape_char s).
Proof.
  induction s as [| c s IH]; cbn [flat_map]; [constructor |].
  apply printable_app; [apply escape_char_printable | exact IH].
Qed.

Lemma encode_basestring_ascii_printable (s : pystr) :
  printable (encode_basestring_ascii s).
Proof.
  unfold encode_basestring_ascii. constructor; [lia |].
  apply printable_app; [| repeat constructor; lia].
  induction s as [| c s IH]; cbn [flat_map]; [constructor |].
  apply printable_app; [apply escape_char_printable | exact IH].
Qed.

Lemma int_repr_printable (z : Z) : printable (int_repr z).
Proof.
  assert (H : forall u, printable (uint_text u)).
  { induction u; cbn [uint_text]; constructor; (exact IHu || (unfold digit_char; lia) || idtac).
    all: try constructor. }
  unfold int_repr. destruct (Z.to_int z); [apply H |].
  constructor; [lia | apply H].
Qed.

Lemma dumps_items_printable (r : list value) :
  Forall writes_printable r -> forallb json_ok r = true ->
  forall t, dumps_items r = Ok t -> printable t.
Proof.
  induction 1 as [| y r Hy Hr IH]; cbn [forallb dumps_items]; intros Hok t.
  - intros H. injection H as <-. printable_parts.
  - apply andb_true_iff in Hok. destruct Hok as [Hy' Hr'].
    destruct (dumps y) as [ty |] eqn:Ey; [| discriminate]. cbn [bind_result].
    destruct (dumps_items r) as [ti |] eqn:Ei; [| discriminate]. cbn [bind_result].
    intros H. injection H as <-. printable_parts.
    + exact (Hy Hy' _ Ey).
    + exact (IH Hr' _ eq_refl).
Qed.

Lemma dumps_pairs_printable (r : list (pystr * value)) :
  Forall (fun kv => writes_printable (snd kv)) r ->
  forallb (fun kv => match kv with (k, x) => str_ok k && json_ok x end) r = true ->
  forall t, dumps_pairs r = Ok t -> printable t.
Proof.
  induction 1 as [| [k y] r Hy Hr IH]; cbn [forallb dumps_pairs]; intros Hok t.
  - intros H. injection H as <-. printable_parts.
  - apply andb_true_iff in Hok. destruct Hok as [Hy' Hr'].
    apply andb_true_iff in Hy'. destruct Hy' as [_ Hy'].
    destruct (dumps y) as [ty |] eqn:Ey; [| discriminate]. cbn [bind_result].
    destruct (dumps_pairs r) as [ti |] eqn:Ei; [| discriminate]. cbn [bind_result].
    intros H. injection H as <-.
    unfold encode_basestring_ascii. printable_parts.
    + apply escaped_printable.
    + exact (Hy Hy' _ Ey).
    + exact (IH Hr' _ eq_refl).
Qed.

Lemma dumps_printable (v : value) : writes_printable v.
Proof.
  induction v as [| b | z | t | s | l IH | d IH | c] using value_nested_ind;
    intros Hok text; try discriminate.
  - intros H. injection H as <-. printable_parts.
  - destruct b; intros H; injection H as <-; printable_parts.
  - intros H. injection H as <-. apply int_repr_printable.
  - intros H. injection H as <-. apply encode_basestring_ascii_printable.
  - destruct l as [| x r].
    + intros H. injection H as <-. printable_parts.
    + rewrite dumps_list_cons. cbn [json_ok forallb] in Hok.
      apply andb_true_iff in Hok. destruct Hok as [Hx Hr].
      inversion IH as [| ? ? Px Pr]; subst.
      destruct (dumps x) as [tx |] eqn:Ex; [| discriminate]. cbn [bind_result].
      destruct (dumps_items r) as [ti |] eqn:Ei; [| discriminate]. cbn [bind_result].
      intros H. injection H as <-. printable_parts.
      * exact (Px Hx _ Ex).
      * exact (dumps_items_printable r Pr Hr _ Ei).
  - destruct d as [| [k x] r].
    + intros H. injection H as <-. printable_parts.
    + rewrite dumps_dict_cons. cbn [json_ok forallb] in Hok.
      apply andb_true_iff in Hok. destruct Hok as [Hok _].
      apply andb_true_iff in Hok. destruct Hok as [Hx Hr].
      apply andb_true_iff in Hx. destruct Hx as [_ Hx].
      inversion IH as [| ? ? Px Pr]; subst. cbn [snd] in Px.
      destruct (dumps x) as [tx |] eqn:Ex; [| discriminate]. cbn [bind_result].
      destruct (dumps_pairs r) as [ti |] eqn:Ei; [| discriminate]. cbn [bind_result].
      intros H. injection H as <-.
      unfold encode_basestring_ascii. printable_parts.
      * apply escaped_printable.
      * exact (Px Hx _ Ex).
      * exact (dumps_pairs_printable r Pr Hr _ Ei).
Qed.

(** X20.  The text that [serialize] writes for a command with
    JSON-representable attributes consists of printable ASCII characters
    only: whatever the strings in the args hold, it has no line break,
    no control character and no character above [~]. *)
Theorem serialize_printable (self : command) (text : pystr) :
  json_ok (VDict (__dict__ self)) = true ->
  serialize self = Ok text ->
  printable text.
Proof.
  intros Hok H. exact (dumps_printable (VDict (__dict__ self)) Hok text H).
Qed.

Lemma serialize_printable_witness :
  printable
    (json_text "{'flag': 1, 'args': {'msg': 'a\nb\u00e9\ud83d\ude00'}}").
Proof.
  apply (serialize_printable
           (mkCommand ClientCommand
              [(str "flag", VInt 1);
               (str "args", VDict [(str "msg", VStr [97; 10; 98; 233; 128512]%N)])]));
    vm_compute; reflexivity.
Defined.
